(** * Clearance and netclass resolution of board connected items

    A shallow embedding of [pcbnew/board_connected_item.cpp] (KiCad):
    [SetNetCode], [GetEffectiveNetclass], [GetNetClass], [GetRuleClearance]
    and the three-level cascade of [GetClearance], followed by the
    properties of the cascade.

    Conventions.
    - A C++ [int] is a [Z]; the code only compares and copies clearances,
      it never does arithmetic on them, so no wrap-around is involved.
    - A pointer that may be null is an [option]; dereferencing a null
      pointer is the outcome [NullDeref] of the [result] monad.
    - An out-parameter [wxString* aSource] is an [option string] that is
      threaded through: [None] is [nullptr], [Some s] is a caller's string
      currently holding [s].
    - [_( ... )] (translation) is the identity. *)

From Stdlib Require Import ZArith Lia.
From stdpp Require Import base option list strings gmap.

Local Open Scope Z_scope.

(** ** Outcomes *)

Inductive result (A : Type) : Type :=
| Ok (a : A)
| NullDeref.

Arguments Ok {A} a.
Arguments NullDeref {A}.

#[global] Instance result_ret : MRet result := fun A a => Ok a.

#[global] Instance result_bind : MBind result := fun A B f m =>
  match m with
  | Ok a => f a
  | NullDeref => NullDeref
  end.

(** Writing a label through a [wxString*]: nothing happens on [nullptr]. *)
Definition write_source (label : string) (aSource : option string) : option string :=
  match aSource with
  | Some _ => Some label
  | None => None
  end.

(** ** Layers *)

(** Modelled from the spec: the [PCB_LAYER_ID] enumeration is declared in a
    header that is not part of these sources.  The code names two of its
    members, [Edge_Cuts] and [UNDEFINED_LAYER]; every other layer is
    [Layer n]. *)
Inductive PCB_LAYER_ID : Type :=
| UNDEFINED_LAYER
| Edge_Cuts
| Layer (n : nat).

#[global] Instance PCB_LAYER_ID_eq_dec : EqDecision PCB_LAYER_ID.
Proof. solve_decision. Defined.

(** ** Netclasses and nets *)

Module NETCLASS.

Record t : Type := mk {
  m_Name : string;
  m_Clearance : Z;
  (** the provenance text [GetClearance( aSource )] reports *)
  m_Source : string
}.

(** Modelled from the spec: [NETCLASS::GetClearance( wxString* aSource )] is
    defined outside these sources.  It returns the netclass' baseline
    clearance and, when a label is requested, names the netclass. *)
Definition GetClearance (nc : t) (aSource : option string) : Z * option string :=
  (m_Clearance nc, write_source (m_Source nc) aSource).

End NETCLASS.

Module NETINFO_ITEM.

Record t : Type := mk {
  m_NetCode : Z;
  m_Netname : string;
  (** [NETCLASS*], possibly null *)
  m_NetClass : option NETCLASS.t
}.

Definition GetNet (n : t) : Z := m_NetCode n.
Definition GetNetClass (n : t) : option NETCLASS.t := m_NetClass n.

End NETINFO_ITEM.

(** ** Items *)

(** Boards live in a store and items refer to theirs by address, so that
    two items can share one board. *)
Definition BOARD_REF : Type := nat.

(** What every [BOARD_ITEM] has: the board reached through its parents
    ([GetBoard()], [nullptr] when the item is not linked to a board) and
    its layer ([GetLayer()]). *)
Record BOARD_ITEM_BASE : Type := {
  m_Parent : option BOARD_REF;
  m_Layer : PCB_LAYER_ID
}.

(** A [BOARD_CONNECTED_ITEM].  The virtual methods [IsOnCopperLayer],
    [GetLocalClearanceOverrides] and [GetLocalClearance] are implemented by
    the subclasses (pads, tracks, zones), outside this file; each item
    carries what they answer, value and provenance text. *)
Record BOARD_CONNECTED_ITEM : Type := {
  base : BOARD_ITEM_BASE;
  (** [NETINFO_ITEM*], null after a [SetNetCode] that found no net *)
  m_netinfo : option NETINFO_ITEM.t;
  m_localRatsnestVisible : bool;
  IsOnCopperLayer : bool;
  m_LocalClearanceOverrides : Z;
  m_LocalClearanceOverridesSource : string;
  m_LocalClearance : Z;
  m_LocalClearanceSource : string
}.

(** A [BOARD_ITEM*] points either to a connected item or to an item of
    another kind (a board outline segment, a footprint, a text). *)
Inductive BOARD_ITEM : Type :=
| Connected (c : BOARD_CONNECTED_ITEM)
| Unconnected (b : BOARD_ITEM_BASE).

Definition item_base (i : BOARD_ITEM) : BOARD_ITEM_BASE :=
  match i with
  | Connected c => base c
  | Unconnected b => b
  end.

Definition GetLayer (i : BOARD_ITEM) : PCB_LAYER_ID := m_Layer (item_base i).

(** [dynamic_cast<BOARD_CONNECTED_ITEM*>( aItem )] *)
Definition dynamic_cast_connected (aItem : option BOARD_ITEM) : option BOARD_CONNECTED_ITEM :=
  match aItem with
  | Some (Connected c) => Some c
  | _ => None
  end.

Definition GetLocalClearanceOverrides (i : BOARD_CONNECTED_ITEM) (aSource : option string)
  : Z * option string :=
  (m_LocalClearanceOverrides i, write_source (m_LocalClearanceOverridesSource i) aSource).

Definition GetLocalClearance (i : BOARD_CONNECTED_ITEM) (aSource : option string)
  : Z * option string :=
  (m_LocalClearance i, write_source (m_LocalClearanceSource i) aSource).

(** ** Design rules *)

Inductive DRC_CONSTRAINT_TYPE_T : Type :=
| DRC_CONSTRAINT_TYPE_CLEARANCE
| DRC_CONSTRAINT_TYPE_OTHER.

#[global] Instance DRC_CONSTRAINT_TYPE_T_eq_dec : EqDecision DRC_CONSTRAINT_TYPE_T.
Proof. solve_decision. Defined.

(** [MINOPTMAX<int>]; only [Min()] is read here. *)
Record MINOPTMAX : Type := { m_min : Z }.

Definition Min (v : MINOPTMAX) : Z := m_min v.

Record DRC_CONSTRAINT : Type := {
  m_Type : DRC_CONSTRAINT_TYPE_T;
  m_Value : MINOPTMAX
}.

(** Modelled from the spec: a design rule is a selector over
    (itemA, itemB, layer), a constraint and a human-readable name. *)
Record DRC_RULE : Type := {
  m_RuleName : string;
  m_Condition : BOARD_ITEM -> option BOARD_ITEM -> PCB_LAYER_ID -> bool;
  m_Constraint : DRC_CONSTRAINT
}.

(** ** Boards *)

Record BOARD_DESIGN_SETTINGS : Type := {
  m_MinClearance : Z;
  m_CopperEdgeClearance : Z;
  (** the Default netclass, always present *)
  m_Default : NETCLASS.t;
  (** ordered by priority when the rules are compiled *)
  m_rules : list DRC_RULE
}.

Definition GetDefault (bds : BOARD_DESIGN_SETTINGS) : option NETCLASS.t :=
  Some (m_Default bds).

Record BOARD : Type := {
  m_designSettings : BOARD_DESIGN_SETTINGS;
  m_NetInfo : gmap Z NETINFO_ITEM.t
}.

Definition GetDesignSettings (b : BOARD) : BOARD_DESIGN_SETTINGS := m_designSettings b.

(** Modelled from the spec: [BOARD::FindNet] is defined outside these
    sources; the board-owned registry maps a net code to its net record and
    answers null for a code it does not hold. *)
Definition FindNet (b : BOARD) (aNetcode : Z) : option NETINFO_ITEM.t :=
  m_NetInfo b !! aNetcode.

(** The memory the items point into: the boards, and the process-wide
    record [NETINFO_LIST::OrphanedItem()]. *)
Record HEAP : Type := {
  boards : BOARD_REF -> BOARD;
  OrphanedItem : NETINFO_ITEM.t
}.

Definition GetBoard (h : HEAP) (i : BOARD_ITEM_BASE) : option BOARD :=
  boards h <$> m_Parent i.

(** Modelled from the spec: a rule matches when its selector accepts
    (itemA, itemB, layer) and its constraint is of the requested kind. *)
Definition rule_matches (aItem : BOARD_ITEM) (bItem : option BOARD_ITEM)
    (aConstraint : DRC_CONSTRAINT_TYPE_T) (aLayer : PCB_LAYER_ID) (r : DRC_RULE) : bool :=
  bool_decide (m_Type (m_Constraint r) = aConstraint) && m_Condition r aItem bItem aLayer.

(** Modelled from the spec: [GetConstraint] is defined outside these
    sources.  It iterates the ordered rule set of the board of the first
    item and returns the first rule that matches, reporting its name when a
    label is asked for; no match returns null and writes nothing. *)
Definition GetConstraint (h : HEAP) (aItem : BOARD_ITEM) (bItem : option BOARD_ITEM)
    (aConstraint : DRC_CONSTRAINT_TYPE_T) (aLayer : PCB_LAYER_ID) (aRuleName : option string)
  : option DRC_CONSTRAINT * option string :=
  match GetBoard h (item_base aItem) with
  | None => (None, aRuleName)
  | Some board =>
      match find (rule_matches aItem bItem aConstraint aLayer)
                 (m_rules (GetDesignSettings board)) with
      | Some r => (Some (m_Constraint r), write_source (m_RuleName r) aRuleName)
      | None => (None, aRuleName)
      end
  end.

(** ** board_connected_item.cpp *)

(** [BOARD_CONNECTED_ITEM::SetNetCode].  [wxASSERT] only reports; it does
    not change the state or the value returned. *)
Definition SetNetCode (h : HEAP) (this : BOARD_CONNECTED_ITEM) (aNetCode : Z) (aNoAssert : bool)
  : BOARD_CONNECTED_ITEM * bool :=
  let aNetCode := if negb (IsOnCopperLayer this) then 0 else aNetCode in
  let board := GetBoard h (base this) in
  let netinfo :=
    match board with
    | Some board => if aNetCode >=? 0 then FindNet board aNetCode else Some (OrphanedItem h)
    | None => Some (OrphanedItem h)
    end in
  ({| base := base this;
      m_netinfo := netinfo;
      m_localRatsnestVisible := m_localRatsnestVisible this;
      IsOnCopperLayer := IsOnCopperLayer this;
      m_LocalClearanceOverrides := m_LocalClearanceOverrides this;
      m_LocalClearanceOverridesSource := m_LocalClearanceOverridesSource this;
      m_LocalClearance := m_LocalClearance this;
      m_LocalClearanceSource := m_LocalClearanceSource this |},
   bool_decide (netinfo <> None)).

(** [BOARD_CONNECTED_ITEM::GetNetClass] *)
Definition GetNetClass (h : HEAP) (this : BOARD_CONNECTED_ITEM) : result (option NETCLASS.t) :=
  match m_netinfo this with
  | None => NullDeref
  | Some netinfo =>
      match NETINFO_ITEM.GetNetClass netinfo with
      | Some netclass => Ok (Some netclass)
      | None =>
          match GetBoard h (base this) with
          | None => NullDeref
          | Some board => Ok (GetDefault (GetDesignSettings board))
          end
      end
  end.

(** [BOARD_CONNECTED_ITEM::GetEffectiveNetclass] *)
Definition GetEffectiveNetclass (h : HEAP) (this : BOARD_CONNECTED_ITEM)
  : result (option NETCLASS.t) :=
  match m_netinfo this with
  | None => NullDeref
  | Some netinfo =>
      if NETINFO_ITEM.GetNet netinfo =? 0 then
        match GetBoard h (base this) with
        | None => NullDeref
        | Some board => Ok (GetDefault (GetDesignSettings board))
        end
      else GetNetClass h this
  end.

(** [BOARD_CONNECTED_ITEM::GetRuleClearance]; [aClearance] is the value the
    caller's [int] holds on entry, the result carries the one it holds on
    return. *)
Definition GetRuleClearance (h : HEAP) (this : BOARD_CONNECTED_ITEM) (aItem : option BOARD_ITEM)
    (aLayer : PCB_LAYER_ID) (aClearance : Z) (aSource : option string)
  : bool * Z * option string :=
  match GetConstraint h (Connected this) aItem DRC_CONSTRAINT_TYPE_CLEARANCE aLayer aSource with
  | (Some constraint, aSource) =>
      let aSource :=
        match aSource with
        | Some s => Some ("'" +:+ s +:+ "' rule")
        | None => None
        end in
      (true, Min (m_Value constraint), aSource)
  | (None, aSource) => (false, aClearance, aSource)
  end.

(** [BOARD_CONNECTED_ITEM::GetClearance] *)
Definition GetClearance (h : HEAP) (this : BOARD_CONNECTED_ITEM) (aLayer : PCB_LAYER_ID)
    (aItem : option BOARD_ITEM) (aSource : option string) : result (Z * option string) :=
  let board := GetBoard h (base this) in
  let clearance := 0 in
  let source := "" in
  let localSource := match aSource with Some _ => Some source | None => None end in
  let second := dynamic_cast_connected aItem in
  match board with
  | None => Ok (clearance, aSource)
  | Some board =>
      (* LEVEL 1: local overrides *)
      let '(clearance, localSource) :=
        if fst (GetLocalClearanceOverrides this None) >? clearance
        then GetLocalClearanceOverrides this localSource
        else (clearance, localSource) in
      let '(clearance, localSource) :=
        match second with
        | Some second =>
            if fst (GetLocalClearanceOverrides second None) >? clearance
            then GetLocalClearanceOverrides second localSource
            else (clearance, localSource)
        | None => (clearance, localSource)
        end in
      if negb (clearance =? 0) then
        Ok (clearance, match aSource with Some _ => localSource | None => None end)
      else
        (* LEVEL 2: rules *)
        match GetRuleClearance h this aItem aLayer clearance aSource with
        | (true, clearance, aSource) => Ok (clearance, aSource)
        | (false, clearance, aSource) =>
            (* LEVEL 3: accumulated local, netclass and board settings *)
            let bds := GetDesignSettings board in
            netclass ← GetEffectiveNetclass h this;
            secondNetclass ← match second with
                             | Some second => GetEffectiveNetclass h second
                             | None => Ok None
                             end;
            let '(clearance, aSource) :=
              if m_MinClearance bds >? clearance
              then (m_MinClearance bds, write_source "board minimum" aSource)
              else (clearance, aSource) in
            let '(clearance, aSource) :=
              match netclass with
              | Some netclass =>
                  if fst (NETCLASS.GetClearance netclass None) >? clearance
                  then NETCLASS.GetClearance netclass aSource
                  else (clearance, aSource)
              | None => (clearance, aSource)
              end in
            let '(clearance, aSource) :=
              match secondNetclass with
              | Some secondNetclass =>
                  if fst (NETCLASS.GetClearance secondNetclass None) >? clearance
                  then NETCLASS.GetClearance secondNetclass aSource
                  else (clearance, aSource)
              | None => (clearance, aSource)
              end in
            let '(clearance, aSource) :=
              match aItem with
              | Some item =>
                  if bool_decide (GetLayer item = Edge_Cuts)
                     && (m_CopperEdgeClearance bds >? clearance)
                  then (m_CopperEdgeClearance bds, write_source "board edge" aSource)
                  else (clearance, aSource)
              | None => (clearance, aSource)
              end in
            let '(clearance, aSource) :=
              if fst (GetLocalClearance this None) >? clearance
              then GetLocalClearance this aSource
              else (clearance, aSource) in
            let '(clearance, aSource) :=
              match second with
              | Some second =>
                  if fst (GetLocalClearance second None) >? clearance
                  then GetLocalClearance second aSource
                  else (clearance, aSource)
              | None => (clearance, aSource)
              end in
            Ok (clearance, aSource)
        end
  end.

(** ** The cascade as the specification words it *)

(** The values of a [result], without the provenance text. *)
Definition clearance_of (r : result (Z * option string)) : result Z :=
  match r with
  | Ok (c, _) => Ok c
  | NullDeref => NullDeref
  end.

(** A Level-3 candidate: a value and the text naming where it comes from. *)
Definition candidate : Type := (Z * string)%type.

(** A candidate replaces the running value only when strictly greater. *)
Definition consider (acc : Z * option string) (c : candidate) : Z * option string :=
  if fst c >? fst acc then (fst c, write_source (snd c) (snd acc)) else acc.

Definition spec_accumulate (cands : list candidate) (init : Z * option string)
  : Z * option string :=
  fold_left consider cands init.

Definition netclass_candidate (nc : option NETCLASS.t) : list candidate :=
  match nc with
  | Some nc => [(NETCLASS.m_Clearance nc, NETCLASS.m_Source nc)]
  | None => []
  end.

Definition edge_candidate (bds : BOARD_DESIGN_SETTINGS) (aItem : option BOARD_ITEM)
  : list candidate :=
  match aItem with
  | Some item =>
      if bool_decide (GetLayer item = Edge_Cuts)
      then [(m_CopperEdgeClearance bds, "board edge")] else []
  | None => []
  end.

Definition local_candidate (i : option BOARD_CONNECTED_ITEM) : list candidate :=
  match i with
  | Some i => [(m_LocalClearance i, m_LocalClearanceSource i)]
  | None => []
  end.

(** The Level-3 candidates in the order the specification lists them. *)
Definition spec_level3_candidates (bds : BOARD_DESIGN_SETTINGS) (itemA : BOARD_CONNECTED_ITEM)
    (netclassA : option NETCLASS.t) (itemB : option BOARD_ITEM)
    (netclassB : option NETCLASS.t) : list candidate :=
  [(m_MinClearance bds, "board minimum")]
  ++ netclass_candidate netclassA
  ++ netclass_candidate netclassB
  ++ edge_candidate bds itemB
  ++ local_candidate (Some itemA)
  ++ local_candidate (dynamic_cast_connected itemB).

(** The effective netclass of the second item, [nullptr] when there is no
    second connected item. *)
Definition second_effective_netclass (h : HEAP) (aItem : option BOARD_ITEM)
  : result (option NETCLASS.t) :=
  match dynamic_cast_connected aItem with
  | Some second => GetEffectiveNetclass h second
  | None => Ok None
  end.

(** The greatest of zero and the candidates' values. *)
Definition max_clearance (cands : list candidate) : Z :=
  fold_right Z.max 0 (map fst cands).

(** Level 1 in the words of the specification: the greater of the two
    overrides, the second one counting only for a connected second item,
    and the text of the override that set it. *)
Definition max_override (this : BOARD_CONNECTED_ITEM) (aItem : option BOARD_ITEM) : Z :=
  match dynamic_cast_connected aItem with
  | Some second => Z.max (m_LocalClearanceOverrides this) (m_LocalClearanceOverrides second)
  | None => m_LocalClearanceOverrides this
  end.

Definition override_source (this : BOARD_CONNECTED_ITEM) (aItem : option BOARD_ITEM) : string :=
  match dynamic_cast_connected aItem with
  | Some second =>
      if m_LocalClearanceOverrides second >? Z.max 0 (m_LocalClearanceOverrides this)
      then m_LocalClearanceOverridesSource second
      else m_LocalClearanceOverridesSource this
  | None => m_LocalClearanceOverridesSource this
  end.

(** No strictly positive local clearance override on either item. *)
Definition no_override (this : BOARD_CONNECTED_ITEM) (aItem : option BOARD_ITEM) : Prop :=
  m_LocalClearanceOverrides this <= 0 /\
  match dynamic_cast_connected aItem with
  | Some second => m_LocalClearanceOverrides second <= 0
  | None => True
  end.

(** No design rule of clearance kind matches (this, aItem, aLayer). *)
Definition no_rule (h : HEAP) (this : BOARD_CONNECTED_ITEM) (aItem : option BOARD_ITEM)
    (aLayer : PCB_LAYER_ID) : Prop :=
  fst (GetConstraint h (Connected this) aItem DRC_CONSTRAINT_TYPE_CLEARANCE aLayer None) = None.

(** Changing the minimum clearance of the board at [r], all else equal. *)
Definition with_MinClearance (m : Z) (b : BOARD) : BOARD :=
  {| m_designSettings :=
       {| m_MinClearance := m;
          m_CopperEdgeClearance := m_CopperEdgeClearance (m_designSettings b);
          m_Default := m_Default (m_designSettings b);
          m_rules := m_rules (m_designSettings b) |};
     m_NetInfo := m_NetInfo b |}.

Definition set_MinClearance (h : HEAP) (r : BOARD_REF) (m : Z) : HEAP :=
  {| boards := fun r' => if decide (r' = r) then with_MinClearance m (boards h r')
                         else boards h r';
     OrphanedItem := OrphanedItem h |}.

(** [r1] is an outcome no greater than [r2]: the same failure, or two
    values in order. *)
Definition result_le (r1 r2 : result Z) : Prop :=
  match r1, r2 with
  | Ok v1, Ok v2 => v1 <= v2
  | NullDeref, NullDeref => True
  | _, _ => False
  end.

(** ** Sample boards and items *)

Module Sample.

Definition Default : NETCLASS.t := NETCLASS.mk "Default" 200 "'Default' netclass".
Definition Power : NETCLASS.t := NETCLASS.mk "Power" 180 "'Power' netclass".
Definition Wide : NETCLASS.t := NETCLASS.mk "Wide" 300 "'Wide' netclass".

Definition net0 : NETINFO_ITEM.t := NETINFO_ITEM.mk 0 "" (Some Wide).
Definition net1 : NETINFO_ITEM.t := NETINFO_ITEM.mk 1 "GND" None.
Definition net2 : NETINFO_ITEM.t := NETINFO_ITEM.mk 2 "VCC" (Some Power).
Definition net3 : NETINFO_ITEM.t := NETINFO_ITEM.mk 3 "HV" (Some Wide).
Definition orphan : NETINFO_ITEM.t := NETINFO_ITEM.mk 0 "" None.

Definition nets : gmap Z NETINFO_ITEM.t :=
  <[0 := net0]> (<[1 := net1]> (<[2 := net2]> (<[3 := net3]> ∅))).

Definition settings (min edge : Z) (rules : list DRC_RULE) : BOARD_DESIGN_SETTINGS :=
  {| m_MinClearance := min; m_CopperEdgeClearance := edge;
     m_Default := Default; m_rules := rules |}.

Definition board (min edge : Z) (rules : list DRC_RULE) : BOARD :=
  {| m_designSettings := settings min edge rules; m_NetInfo := nets |}.

Definition heap (b : BOARD) : HEAP := {| boards := fun _ => b; OrphanedItem := orphan |}.

Definition item (parent : option BOARD_REF) (layer : PCB_LAYER_ID)
    (net : option NETINFO_ITEM.t) (override loc : Z) : BOARD_CONNECTED_ITEM :=
  {| base := {| m_Parent := parent; m_Layer := layer |};
     m_netinfo := net;
     m_localRatsnestVisible := true;
     IsOnCopperLayer := true;
     m_LocalClearanceOverrides := override;
     m_LocalClearanceOverridesSource := "pad override";
     m_LocalClearance := loc;
     m_LocalClearanceSource := "pad" |}.


Definition rule (name : string) (min : Z) : DRC_RULE :=
  {| m_RuleName := name;
     m_Condition := fun _ _ _ => true;
     m_Constraint := {| m_Type := DRC_CONSTRAINT_TYPE_CLEARANCE;
                        m_Value := {| m_min := min |} |} |}.

Definition edge_segment : BOARD_ITEM :=
  Unconnected {| m_Parent := Some 0%nat; m_Layer := Edge_Cuts |}.



End Sample.


(** ** More of board_connected_item.cpp *)

(** [BOARD_CONNECTED_ITEM::BOARD_CONNECTED_ITEM( aParent, idtype )]: the new
    item holds the orphaned net record and shows its ratsnest.  What the
    subclass answers to the virtual methods comes with it. *)
Definition BOARD_CONNECTED_ITEM_new (h : HEAP) (aParent : BOARD_ITEM_BASE) (onCopper : bool)
    (overrides : Z) (overridesSource : string) (loc : Z) (locSource : string)
  : BOARD_CONNECTED_ITEM :=
  {| base := aParent;
     m_netinfo := Some (OrphanedItem h);
     m_localRatsnestVisible := true;
     IsOnCopperLayer := onCopper;
     m_LocalClearanceOverrides := overrides;
     m_LocalClearanceOverridesSource := overridesSource;
     m_LocalClearance := loc;
     m_LocalClearanceSource := locSource |}.

(** The net code [SetNetCode] proceeds with. *)
Definition effective_net_code (this : BOARD_CONNECTED_ITEM) (aNetCode : Z) : Z :=
  if IsOnCopperLayer this then aNetCode else 0.

(** Changing the copper-edge clearance of the board at [r], all else equal. *)
Definition with_CopperEdgeClearance (e : Z) (b : BOARD) : BOARD :=
  {| m_designSettings :=
       {| m_MinClearance := m_MinClearance (m_designSettings b);
          m_CopperEdgeClearance := e;
          m_Default := m_Default (m_designSettings b);
          m_rules := m_rules (m_designSettings b) |};
     m_NetInfo := m_NetInfo b |}.

Definition set_CopperEdgeClearance (h : HEAP) (r : BOARD_REF) (e : Z) : HEAP :=
  {| boards := fun r' => if decide (r' = r) then with_CopperEdgeClearance e (boards h r')
                         else boards h r';
     OrphanedItem := OrphanedItem h |}.

(** The label of the first candidate whose value is [m]. *)
Definition first_reaching (m : Z) (cands : list candidate) : option string :=
  snd <$> find (fun c => bool_decide (fst c = m)) cands.

(** ** tools/edit_tool.cpp *)

(** A C++ [int]: 32 bits, two's complement.  [wrap_int] brings the
    mathematical result of an operation back into the range. *)
Definition int_min : Z := - 2 ^ 31.
Definition int_max : Z := 2 ^ 31 - 1.

Definition in_int (z : Z) : Prop := int_min <= z <= int_max.

Definition wrap_int (z : Z) : Z := (z + 2 ^ 31) mod 2 ^ 32 - 2 ^ 31.

Module wxPoint.

Record t : Type := mk { x : Z; y : Z }.

End wxPoint.

(** [mirrorPointX]: mirror a point about the vertical axis passing through
    another point.  The three assignments to [mirrored.x] are kept apart,
    each one an [int] operation. *)
Definition mirrorPointX (aPoint aMirrorPoint : wxPoint.t) : wxPoint.t :=
  let mirrored := aPoint in
  let mirrored :=
    wxPoint.mk (wrap_int (wxPoint.x mirrored - wxPoint.x aMirrorPoint)) (wxPoint.y mirrored) in
  let mirrored :=
    wxPoint.mk (wrap_int (- wxPoint.x mirrored)) (wxPoint.y mirrored) in
  let mirrored :=
    wxPoint.mk (wrap_int (wxPoint.x mirrored + wxPoint.x aMirrorPoint)) (wxPoint.y mirrored) in
  mirrored.

(** The item kinds [Type()] answers that this file tests for; the others
    are [OTHER_T n]. *)
Inductive KICAD_T : Type :=
| PCB_PAD_T
| PCB_FOOTPRINT_T
| PCB_VIA_T
| PCB_TRACE_T
| PCB_ARC_T
| OTHER_T (n : nat).

#[global] Instance KICAD_T_eq_dec : EqDecision KICAD_T.
Proof. solve_decision. Defined.

(** The loop shared by [PadFilter] and [FootprintFilter]:
    [for( int i = aCollector.GetCount() - 1; i >= 0; i-- )], removing the
    entry at [i] when its [Type()] is not [keep].  [n] is [i + 1]; the
    collector is the list of its entries and [Remove( i )] erases the entry
    at index [i].  An index past the end does not occur, the loop starts
    below [GetCount()] and only ever removes at its own index. *)
Fixpoint collector_filter_loop {A : Type} (Type_ : A -> KICAD_T) (keep : KICAD_T)
    (n : nat) (aCollector : list A) : list A :=
  match n with
  | O => aCollector
  | S i =>
      match aCollector !! i with
      | Some item =>
          if bool_decide (Type_ item <> keep)
          then collector_filter_loop Type_ keep i (delete i aCollector)
          else collector_filter_loop Type_ keep i aCollector
      | None => collector_filter_loop Type_ keep i aCollector
      end
  end.

(** [EDIT_TOOL::PadFilter] *)
Definition PadFilter {A : Type} (Type_ : A -> KICAD_T) (aCollector : list A) : list A :=
  collector_filter_loop Type_ PCB_PAD_T (length aCollector) aCollector.

(** [EDIT_TOOL::FootprintFilter] *)
Definition FootprintFilter {A : Type} (Type_ : A -> KICAD_T) (aCollector : list A) : list A :=
  collector_filter_loop Type_ PCB_FOOTPRINT_T (length aCollector) aCollector.

(** Tracks and vias, as [EDIT_TOOL::ChangeTrackWidth] sees them. *)
Inductive VIATYPE : Type :=
| VIATYPE_THROUGH
| VIATYPE_BLIND_BURIED
| VIATYPE_MICROVIA
| VIATYPE_NOT_DEFINED.

#[global] Instance VIATYPE_eq_dec : EqDecision VIATYPE.
Proof. solve_decision. Defined.

Module VIA.

Record t : Type := mk {
  connected : BOARD_CONNECTED_ITEM;
  m_ViaType : VIATYPE;
  m_Width : Z;
  m_Drill : Z
}.

End VIA.

Module TRACK.

Record t : Type := mk {
  connected : BOARD_CONNECTED_ITEM;
  m_Width : Z
}.

End TRACK.

(** An entry of the selection: a via, a track segment, an arc, or an item
    of a kind the loop passes over. *)
Inductive EDA_ITEM : Type :=
| ItemVia (via : VIA.t)
| ItemTrace (track : TRACK.t)
| ItemArc (track : TRACK.t)
| ItemOther (kind : nat).

(** What [ChangeTrackWidth] reads and this file does not define: the
    microvia sizes of a netclass and the current sizes of the tool's
    board. *)
Record TRACK_SIZES : Type := {
  GetuViaDiameter : NETCLASS.t -> Z;
  GetuViaDrill : NETCLASS.t -> Z;
  GetCurrentViaSize : Z;
  GetCurrentViaDrill : Z;
  GetCurrentTrackWidth : Z
}.

(** The body of the loop of [EDIT_TOOL::ChangeTrackWidth] for one entry.
    [m_commit->Modify] only records the entry for undo. *)
Definition change_width (h : HEAP) (sz : TRACK_SIZES) (item : EDA_ITEM) : result EDA_ITEM :=
  match item with
  | ItemVia via =>
      sizes ← (if bool_decide (VIA.m_ViaType via = VIATYPE_MICROVIA) then
                 netClass ← GetNetClass h (VIA.connected via);
                 match netClass with
                 | Some netClass => Ok (GetuViaDiameter sz netClass, GetuViaDrill sz netClass)
                 | None => NullDeref
                 end
               else Ok (GetCurrentViaSize sz, GetCurrentViaDrill sz));
      let '(new_width, new_drill) := sizes in
      Ok (ItemVia (VIA.mk (VIA.connected via) (VIA.m_ViaType via) new_width new_drill))
  | ItemTrace track =>
      let new_width := GetCurrentTrackWidth sz in
      Ok (ItemTrace (TRACK.mk (TRACK.connected track) new_width))
  | ItemArc track =>
      let new_width := GetCurrentTrackWidth sz in
      Ok (ItemArc (TRACK.mk (TRACK.connected track) new_width))
  | ItemOther kind => Ok (ItemOther kind)
  end.

(** [EDIT_TOOL::ChangeTrackWidth] on the entries of the selection, in
    order.  The selection request, the commit and the notifications to the
    other tools are left out. *)
Fixpoint ChangeTrackWidth (h : HEAP) (sz : TRACK_SIZES) (selection : list EDA_ITEM)
  : result (list EDA_ITEM) :=
  match selection with
  | [] => Ok []
  | item :: rest =>
      item' ← change_width h sz item;
      rest' ← ChangeTrackWidth h sz rest;
      Ok (item' :: rest')
  end.

(** ** Auxiliary facts *)

Lemma gtb_false (x y : Z) : x <= y -> (x >? y) = false.
Proof. intros H. rewrite Z.gtb_ltb. apply Z.ltb_ge. exact H. Qed.

Lemma gtb_true (x y : Z) : y < x -> (x >? y) = true.
Proof. intros H. apply Z.gtb_lt. exact H. Qed.

Lemma gtb_max (x c : Z) : (if x >? c then x else c) = Z.max c x.
Proof. destruct (Z.gtb_spec x c); lia. Qed.

(** Whether a rule matches does not depend on the label being asked for. *)
Lemma GetConstraint_fst h a b ty l s :
  fst (GetConstraint h a b ty l s) = fst (GetConstraint h a b ty l None).
Proof.
  unfold GetConstraint.
  destruct (GetBoard h (item_base a)) as [board|]; [|reflexivity].
  destruct (find _ _); reflexivity.
Qed.

Lemma GetConstraint_no_match h a b ty l s :
  fst (GetConstraint h a b ty l None) = None ->
  GetConstraint h a b ty l s = (None, s).
Proof.
  unfold GetConstraint.
  destruct (GetBoard h (item_base a)) as [board|]; [|reflexivity].
  destruct (find _ _); [discriminate | reflexivity].
Qed.

Lemma GetRuleClearance_no_rule h this aItem aLayer c s :
  no_rule h this aItem aLayer ->
  GetRuleClearance h this aItem aLayer c s = (false, c, s).
Proof.
  intros H. unfold GetRuleClearance.
  rewrite (GetConstraint_no_match _ _ _ _ _ s H). reflexivity.
Qed.

Lemma GetRuleClearance_match h this aItem aLayer c s constraint :
  fst (GetConstraint h (Connected this) aItem DRC_CONSTRAINT_TYPE_CLEARANCE aLayer None)
    = Some constraint ->
  exists s', GetRuleClearance h this aItem aLayer c s = (true, Min (m_Value constraint), s').
Proof.
  intros H. unfold GetRuleClearance.
  rewrite <- (GetConstraint_fst _ _ _ _ _ s) in H.
  destruct (GetConstraint _ _ _ _ _ s) as [o s0]. simpl in H. subst o.
  eexists. reflexivity.
Qed.

(** The value kept by the strict-greater fold is the running maximum. *)
Lemma consider_fst acc c : fst (consider acc c) = Z.max (fst acc) (fst c).
Proof.
  unfold consider. destruct (Z.gtb_spec (fst c) (fst acc)); simpl; lia.
Qed.

Lemma spec_accumulate_fst cands acc :
  fst (spec_accumulate cands acc) = fold_left Z.max (map fst cands) (fst acc).
Proof.
  unfold spec_accumulate. revert acc.
  induction cands as [|c cands IH]; intros acc; simpl; [reflexivity|].
  rewrite IH, consider_fst. reflexivity.
Qed.

Lemma fold_left_max_init l a b :
  fold_left Z.max l (Z.max a b) = Z.max a (fold_left Z.max l b).
Proof.
  revert a b. induction l as [|x l IH]; intros a b; simpl; [reflexivity|].
  rewrite <- IH. f_equal. lia.
Qed.

Lemma fold_left_max_right l :
  fold_left Z.max l 0 = fold_right Z.max 0 l.
Proof.
  induction l as [|x l IH]; simpl; [reflexivity|].
  rewrite <- IH, <- fold_left_max_init. f_equal. lia.
Qed.

Lemma spec_accumulate_max cands s :
  fst (spec_accumulate cands (0, s)) = max_clearance cands.
Proof.
  rewrite spec_accumulate_fst. apply fold_left_max_right.
Qed.

Lemma fold_right_max_nonneg (l : list Z) : 0 <= fold_right Z.max 0 l.
Proof. induction l as [|x l IH]; cbn [fold_right]; lia. Qed.

Lemma fold_right_max_app (l1 l2 : list Z) :
  fold_right Z.max 0 (l1 ++ l2) = Z.max (fold_right Z.max 0 l1) (fold_right Z.max 0 l2).
Proof.
  pose proof (fold_right_max_nonneg l2) as Hm.
  induction l1 as [|x l IH]; cbn [fold_right app]; [lia|].
  rewrite IH. lia.
Qed.

Lemma max_clearance_nonneg cands : 0 <= max_clearance cands.
Proof. apply fold_right_max_nonneg. Qed.

Lemma max_clearance_app l1 l2 :
  max_clearance (l1 ++ l2) = Z.max (max_clearance l1) (max_clearance l2).
Proof.
  unfold max_clearance. rewrite List.map_app. apply fold_right_max_app.
Qed.

Lemma max_swap (A B e LA LB : Z) :
  Z.max A (Z.max B (Z.max e (Z.max LA LB))) = Z.max B (Z.max A (Z.max e (Z.max LB LA))).
Proof.
  rewrite (Z.max_comm LA LB), !Z.max_assoc, (Z.max_comm A B). reflexivity.
Qed.

(** Level 1 is silent when neither item carries a positive override. *)
Lemma level1_silent this aItem :
  no_override this aItem ->
  (m_LocalClearanceOverrides this >? 0) = false /\
  match dynamic_cast_connected aItem with
  | Some second => (m_LocalClearanceOverrides second >? 0) = false
  | None => True
  end.
Proof.
  intros [HA HB]. split; [apply gtb_false; exact HA|].
  destruct (dynamic_cast_connected aItem); [apply gtb_false; exact HB | exact I].
Qed.

(** Runs the six comparisons of Level 3 on both sides of an equation. *)
Ltac level3_steps :=
  unfold consider, NETCLASS.GetClearance, GetLocalClearance;
  cbn [netclass_candidate edge_candidate local_candidate app fold_left fst snd];
  repeat match goal with
         | |- context [bool_decide ?P] =>
             destruct (bool_decide P); cbn [andb app fold_left fst snd]
         | |- context [?x >? ?y] =>
             destruct (x >? y); cbn [andb app fold_left fst snd]
         end;
  reflexivity.

(** Level 3, in full: with a board, no override and no matching rule,
    [GetClearance] resolves both effective netclasses and then folds the
    candidates in the order of the specification. *)
Lemma GetClearance_level3 h this aLayer aItem aSource board :
  GetBoard h (base this) = Some board ->
  no_override this aItem ->
  no_rule h this aItem aLayer ->
  GetClearance h this aLayer aItem aSource =
    (netclass ← GetEffectiveNetclass h this;
     secondNetclass ← second_effective_netclass h aItem;
     Ok (spec_accumulate
           (spec_level3_candidates (GetDesignSettings board) this netclass aItem secondNetclass)
           (0, aSource))).
Proof.
  intros Hb Hov Hr. destruct (level1_silent _ _ Hov) as [HA HB].
  unfold GetClearance, second_effective_netclass. rewrite Hb. cbn [fst GetLocalClearanceOverrides].
  rewrite HA.
  destruct (dynamic_cast_connected aItem) as [second|] eqn:Hsec.
  - rewrite HB. cbn [negb Z.eqb].
    rewrite (GetRuleClearance_no_rule _ _ _ _ _ _ Hr).
    destruct (GetEffectiveNetclass h this) as [netclass|]; [|reflexivity].
    destruct (GetEffectiveNetclass h second) as [secondNetclass|]; [|reflexivity].
    cbn [mbind result_bind]. unfold spec_level3_candidates, spec_accumulate.
    rewrite Hsec.
    destruct aItem as [item|]; [|discriminate].
    destruct netclass as [nc|], secondNetclass as [nc2|];
      level3_steps.
  - cbn [negb Z.eqb].
    rewrite (GetRuleClearance_no_rule _ _ _ _ _ _ Hr).
    destruct (GetEffectiveNetclass h this) as [netclass|]; [|reflexivity].
    cbn [mbind result_bind]. unfold spec_level3_candidates, spec_accumulate.
    rewrite Hsec.
    destruct netclass as [nc|], aItem as [item|];
      level3_steps.
Qed.

(** Level 1, in full: a strictly positive override is returned at once. *)
Lemma GetClearance_level1 h this aLayer aItem aSource board :
  GetBoard h (base this) = Some board ->
  0 < max_override this aItem ->
  GetClearance h this aLayer aItem aSource =
    Ok (max_override this aItem, write_source (override_source this aItem) aSource).
Proof.
  intros Hb Hpos. unfold GetClearance, max_override, override_source in *.
  rewrite Hb. unfold GetLocalClearanceOverrides. cbn [fst snd].
  destruct (dynamic_cast_connected aItem) as [second|].
  - destruct (Z.gtb_spec (m_LocalClearanceOverrides this) 0) as [HA|HA];
      cbn [fst snd].
    + destruct (Z.gtb_spec (m_LocalClearanceOverrides second)
                           (m_LocalClearanceOverrides this)) as [HB|HB];
        cbn [fst snd].
      * rewrite (gtb_true _ (Z.max 0 _)) by lia.
        replace (_ =? 0) with false by (symmetry; apply Z.eqb_neq; lia).
        cbn [negb]. rewrite Z.max_r by lia. destruct aSource; reflexivity.
      * rewrite (gtb_false _ (Z.max 0 _)) by lia.
        replace (_ =? 0) with false by (symmetry; apply Z.eqb_neq; lia).
        cbn [negb]. rewrite Z.max_l by lia. destruct aSource; reflexivity.
    + rewrite (gtb_true (m_LocalClearanceOverrides second) 0) by lia.
      rewrite (gtb_true _ (Z.max 0 _)) by lia. cbn [fst snd].
      replace (_ =? 0) with false by (symmetry; apply Z.eqb_neq; lia).
      cbn [negb]. rewrite Z.max_r by lia. destruct aSource; reflexivity.
  - rewrite (gtb_true _ 0) by lia. cbn [fst snd].
    replace (_ =? 0) with false by (symmetry; apply Z.eqb_neq; lia).
    cbn [negb]. destruct aSource; reflexivity.
Qed.

(** Level 2 through [GetConstraint]: the matching rule's bound is returned. *)
Lemma GetClearance_level2 h this aLayer aItem aSource board constraint :
  GetBoard h (base this) = Some board ->
  no_override this aItem ->
  fst (GetConstraint h (Connected this) aItem DRC_CONSTRAINT_TYPE_CLEARANCE aLayer None)
    = Some constraint ->
  exists s, GetClearance h this aLayer aItem aSource = Ok (Min (m_Value constraint), s).
Proof.
  intros Hb Hov Hc. destruct (level1_silent _ _ Hov) as [HA HB].
  unfold GetClearance. rewrite Hb. cbn [fst GetLocalClearanceOverrides]. rewrite HA.
  destruct (dynamic_cast_connected aItem) as [second|].
  - rewrite HB. cbn [negb Z.eqb].
    destruct (GetRuleClearance_match h this aItem aLayer 0 aSource _ Hc) as [s' ->].
    eexists. reflexivity.
  - cbn [negb Z.eqb].
    destruct (GetRuleClearance_match h this aItem aLayer 0 aSource _ Hc) as [s' ->].
    eexists. reflexivity.
Qed.

Lemma not_positive_no_override this aItem :
  ~ 0 < max_override this aItem -> no_override this aItem.
Proof.
  unfold max_override, no_override.
  destruct (dynamic_cast_connected aItem); lia.
Qed.

Lemma no_override_not_positive this aItem :
  no_override this aItem -> max_override this aItem <= 0.
Proof.
  unfold max_override, no_override.
  destruct (dynamic_cast_connected aItem); lia.
Qed.

Lemma clearance_of_accumulate cands s :
  clearance_of (Ok (spec_accumulate cands (0, s))) = Ok (max_clearance cands).
Proof.
  unfold clearance_of. rewrite <- (spec_accumulate_max cands s).
  destruct (spec_accumulate cands (0, s)). reflexivity.
Qed.

(** The value of Level 3, once both effective netclasses are known. *)
Lemma GetClearance_level3_value h this aLayer aItem aSource board netclass secondNetclass :
  GetBoard h (base this) = Some board ->
  no_override this aItem ->
  no_rule h this aItem aLayer ->
  GetEffectiveNetclass h this = Ok netclass ->
  second_effective_netclass h aItem = Ok secondNetclass ->
  GetClearance h this aLayer aItem aSource =
    Ok (spec_accumulate
          (spec_level3_candidates (GetDesignSettings board) this netclass aItem secondNetclass)
          (0, aSource)).
Proof.
  intros Hb Hov Hr HA HB.
  rewrite (GetClearance_level3 _ _ _ _ _ _ Hb Hov Hr), HA, HB. reflexivity.
Qed.

(** What changing a board's minimum clearance leaves alone. *)
Lemma GetBoard_set_MinClearance h r m i :
  GetBoard (set_MinClearance h r m) i =
    match m_Parent i with
    | Some r' => Some (if decide (r' = r) then with_MinClearance m (boards h r')
                       else boards h r')
    | None => None
    end.
Proof. unfold GetBoard. destruct (m_Parent i); reflexivity. Qed.

Lemma GetEffectiveNetclass_set_MinClearance h r m i :
  GetEffectiveNetclass (set_MinClearance h r m) i = GetEffectiveNetclass h i.
Proof.
  unfold GetEffectiveNetclass, GetNetClass. rewrite GetBoard_set_MinClearance.
  unfold GetBoard. destruct (m_netinfo i) as [n|]; [|reflexivity].
  destruct (m_Parent (base i)) as [r'|]; cbn [fmap option_fmap option_map];
    [|reflexivity].
  destruct (decide (r' = r)); reflexivity.
Qed.

Lemma GetConstraint_set_MinClearance h r m a b ty l s :
  GetConstraint (set_MinClearance h r m) a b ty l s = GetConstraint h a b ty l s.
Proof.
  unfold GetConstraint. rewrite GetBoard_set_MinClearance.
  unfold GetBoard. destruct (m_Parent (item_base a)) as [r'|];
    cbn [fmap option_fmap option_map]; [|reflexivity].
  destruct (decide (r' = r)); reflexivity.
Qed.

(** ** The cascade *)

(** C9. An item with no owning board resolves to clearance 0 at once,
    whatever the second item, the layer and the label request are; nothing
    is dereferenced and the caller's label is left as it was. *)
Theorem C9_no_board_gives_zero h this aLayer aItem aSource :
  GetBoard h (base this) = None ->
  GetClearance h this aLayer aItem aSource = Ok (0, aSource).
Proof.
  intros Hb. unfold GetClearance. rewrite Hb. reflexivity.
Qed.

Lemma C9_no_board_gives_zero_witness :
  GetClearance (Sample.heap (Sample.board 150 250 [Sample.rule "all" 50]))
    (Sample.item None (Layer 0) None 100 70) (Layer 0)
    (Some (Connected (Sample.item None Edge_Cuts None 300 0))) (Some "before")
  = Ok (0, Some "before").
Proof.
  apply (C9_no_board_gives_zero
           (Sample.heap (Sample.board 150 250 [Sample.rule "all" 50]))
           (Sample.item None (Layer 0) None 100 70)).
  reflexivity.
Defined.

(** C2. With a board, when the greater of the two local clearance overrides
    is strictly positive, [GetClearance] returns it, labelled with the
    override that set it; rules, netclasses and board settings are not
    looked at, so neither a matching rule nor a larger default changes the
    answer. *)
Theorem C2_local_override_wins h this aLayer aItem aSource board :
  GetBoard h (base this) = Some board ->
  0 < max_override this aItem ->
  GetClearance h this aLayer aItem aSource =
    Ok (max_override this aItem, write_source (override_source this aItem) aSource).
Proof. exact (GetClearance_level1 h this aLayer aItem aSource board). Qed.

Lemma C2_local_override_wins_witness :
  GetClearance (Sample.heap (Sample.board 150 250 [Sample.rule "all" 500]))
    (Sample.item (Some 0%nat) (Layer 0) (Some Sample.net3) 100 0) (Layer 0)
    (Some (Connected (Sample.item (Some 0%nat) (Layer 0) (Some Sample.net2) 60 0)))
    (Some "")
  = Ok (100, Some "pad override").
Proof.
  apply (C2_local_override_wins
           (Sample.heap (Sample.board 150 250 [Sample.rule "all" 500]))
           (Sample.item (Some 0%nat) (Layer 0) (Some Sample.net3) 100 0) (Layer 0)
           (Some (Connected (Sample.item (Some 0%nat) (Layer 0) (Some Sample.net2) 60 0)))
           (Some "") (Sample.board 150 250 [Sample.rule "all" 500])).
  - reflexivity.
  - vm_compute. reflexivity.
Defined.

(** C3. With a board and no strictly positive override, when the first
    rule of the board's ordered rule set that is of clearance kind and
    accepts (itemA, itemB, layer) is [r], [GetClearance] returns the minimum
    bound of [r] under the label "'<name>' rule".  Level 3 is not run: the
    netclasses are not resolved and the answer is the rule's value whether
    or not a board or netclass default is larger. *)
Theorem C3_matching_rule_wins h this aLayer aItem aSource board r :
  GetBoard h (base this) = Some board ->
  no_override this aItem ->
  find (rule_matches (Connected this) aItem DRC_CONSTRAINT_TYPE_CLEARANCE aLayer)
       (m_rules (GetDesignSettings board)) = Some r ->
  GetClearance h this aLayer aItem aSource =
    Ok (Min (m_Value (m_Constraint r)),
        write_source ("'" +:+ m_RuleName r +:+ "' rule") aSource).
Proof.
  intros Hb Hov Hr. destruct (level1_silent _ _ Hov) as [HA HB].
  unfold GetClearance. rewrite Hb. cbn [fst GetLocalClearanceOverrides]. rewrite HA.
  assert (Hrule : forall c, GetRuleClearance h this aItem aLayer c aSource =
            (true, Min (m_Value (m_Constraint r)),
             write_source ("'" +:+ m_RuleName r +:+ "' rule") aSource)).
  { intros c. unfold GetRuleClearance, GetConstraint. cbn [item_base].
    rewrite Hb, Hr. destruct aSource; reflexivity. }
  destruct (dynamic_cast_connected aItem) as [second|].
  - rewrite HB. cbn [negb Z.eqb]. rewrite Hrule. reflexivity.
  - cbn [negb Z.eqb]. rewrite Hrule. reflexivity.
Qed.

Lemma C3_matching_rule_wins_witness :
  GetClearance (Sample.heap (Sample.board 150 250 [Sample.rule "hv" 50]))
    (Sample.item (Some 0%nat) (Layer 0) (Some Sample.net3) 0 0) (Layer 0) None (Some "")
  = Ok (50, Some "'hv' rule").
Proof.
  apply (C3_matching_rule_wins
           (Sample.heap (Sample.board 150 250 [Sample.rule "hv" 50]))
           (Sample.item (Some 0%nat) (Layer 0) (Some Sample.net3) 0 0) (Layer 0) None (Some "")
           (Sample.board 150 250 [Sample.rule "hv" 50]) (Sample.rule "hv" 50)).
  - reflexivity.
  - split; [vm_compute; discriminate | exact I].
  - reflexivity.
Defined.

(** C1. With a board, no strictly positive override on either item and no
    matching rule, [GetClearance] returns the greatest of zero, the board
    minimum, itemA's effective netclass clearance, itemB's effective
    netclass clearance, the copper-edge clearance when itemB lies on
    [Edge_Cuts], itemA's local clearance and itemB's local clearance.  The
    candidates are taken in that order and one replaces the running value,
    and the label, only when strictly greater. *)
Theorem C1_level3_accumulated_maximum h this aLayer aItem aSource board netclass secondNetclass :
  GetBoard h (base this) = Some board ->
  no_override this aItem ->
  no_rule h this aItem aLayer ->
  GetEffectiveNetclass h this = Ok netclass ->
  second_effective_netclass h aItem = Ok secondNetclass ->
  let cands :=
    spec_level3_candidates (GetDesignSettings board) this netclass aItem secondNetclass in
  GetClearance h this aLayer aItem aSource = Ok (spec_accumulate cands (0, aSource)) /\
  clearance_of (GetClearance h this aLayer aItem aSource) = Ok (max_clearance cands).
Proof.
  intros Hb Hov Hr HA HB cands.
  rewrite (GetClearance_level3_value _ _ _ _ _ _ _ _ Hb Hov Hr HA HB).
  split; [reflexivity | apply clearance_of_accumulate].
Qed.

Lemma C1_level3_accumulated_maximum_witness :
  GetClearance (Sample.heap (Sample.board 150 250 []))
    (Sample.item (Some 0%nat) (Layer 0) (Some Sample.net1) 0 0) (Layer 0)
    (Some (Connected (Sample.item (Some 0%nat) Edge_Cuts (Some Sample.net2) 0 0)))
    (Some "")
  = Ok (250, Some "board edge").
Proof.
  apply (C1_level3_accumulated_maximum
           (Sample.heap (Sample.board 150 250 []))
           (Sample.item (Some 0%nat) (Layer 0) (Some Sample.net1) 0 0) (Layer 0)
           (Some (Connected (Sample.item (Some 0%nat) Edge_Cuts (Some Sample.net2) 0 0)))
           (Some "") (Sample.board 150 250 [])
           (Some Sample.Default) (Some Sample.Power)).
  - reflexivity.
  - split; vm_compute; discriminate.
  - reflexivity.
  - reflexivity.
  - reflexivity.
Defined.

(** C4. For an item linked to a board and holding a net record,
    [GetEffectiveNetclass] answers the board's Default netclass when the
    net code is 0, whatever netclass the net record points to; otherwise
    the net's netclass when there is one and the Default netclass when
    there is none.  The answer is never null. *)
Theorem C4_effective_netclass h this board netinfo :
  GetBoard h (base this) = Some board ->
  m_netinfo this = Some netinfo ->
  (NETINFO_ITEM.GetNet netinfo = 0 ->
   GetEffectiveNetclass h this = Ok (Some (m_Default (GetDesignSettings board)))) /\
  (forall nc, NETINFO_ITEM.GetNet netinfo <> 0 ->
              NETINFO_ITEM.GetNetClass netinfo = Some nc ->
              GetEffectiveNetclass h this = Ok (Some nc)) /\
  (NETINFO_ITEM.GetNet netinfo <> 0 ->
   NETINFO_ITEM.GetNetClass netinfo = None ->
   GetEffectiveNetclass h this = Ok (Some (m_Default (GetDesignSettings board)))) /\
  (exists nc, GetEffectiveNetclass h this = Ok (Some nc)).
Proof.
  intros Hb Hn. unfold GetEffectiveNetclass, GetNetClass. rewrite Hn, Hb.
  unfold GetDefault. split; [|split; [|split]].
  - intros ->. reflexivity.
  - intros nc Hz ->. apply Z.eqb_neq in Hz. rewrite Hz. reflexivity.
  - intros Hz ->. apply Z.eqb_neq in Hz. rewrite Hz. reflexivity.
  - destruct (NETINFO_ITEM.GetNet netinfo =? 0); [eexists; reflexivity|].
    destruct (NETINFO_ITEM.GetNetClass netinfo); eexists; reflexivity.
Qed.

Lemma C4_effective_netclass_witness :
  GetEffectiveNetclass (Sample.heap (Sample.board 150 250 []))
    (Sample.item (Some 0%nat) (Layer 0) (Some Sample.net0) 0 0)
  = Ok (Some Sample.Default).
Proof.
  refine (proj1 (C4_effective_netclass
                   (Sample.heap (Sample.board 150 250 []))
                   (Sample.item (Some 0%nat) (Layer 0) (Some Sample.net0) 0 0)
                   (Sample.board 150 250 []) Sample.net0 _ _) _); reflexivity.
Defined.






(** C10. A second item that is not a connected item brings no override, no
    netclass and no local clearance: Level 1 looks at itemA's override
    alone, and Level 3 folds the board minimum, itemA's netclass, the
    copper-edge clearance when the second item lies on [Edge_Cuts], and
    itemA's local clearance.  On [Edge_Cuts] the result is therefore at
    least the copper-edge clearance. *)
Theorem C10_unconnected_second_item h this aLayer b aSource board :
  GetBoard h (base this) = Some board ->
  let bds := GetDesignSettings board in
  let edge := if bool_decide (m_Layer b = Edge_Cuts)
              then [(m_CopperEdgeClearance bds, "board edge")] else [] in
  let cands netclass :=
    [(m_MinClearance bds, "board minimum")] ++ netclass_candidate netclass ++ edge
    ++ [(m_LocalClearance this, m_LocalClearanceSource this)] in
  (0 < m_LocalClearanceOverrides this ->
   GetClearance h this aLayer (Some (Unconnected b)) aSource =
     Ok (m_LocalClearanceOverrides this,
         write_source (m_LocalClearanceOverridesSource this) aSource)) /\
  (m_LocalClearanceOverrides this <= 0 ->
   no_rule h this (Some (Unconnected b)) aLayer ->
   GetClearance h this aLayer (Some (Unconnected b)) aSource =
     (netclass ← GetEffectiveNetclass h this;
      Ok (spec_accumulate (cands netclass) (0, aSource)))) /\
  (m_LocalClearanceOverrides this <= 0 ->
   no_rule h this (Some (Unconnected b)) aLayer ->
   m_Layer b = Edge_Cuts ->
   forall c s, GetClearance h this aLayer (Some (Unconnected b)) aSource = Ok (c, s) ->
               m_CopperEdgeClearance bds <= c).
Proof.
  intros Hb bds edge cands.
  assert (H3 : m_LocalClearanceOverrides this <= 0 ->
               no_rule h this (Some (Unconnected b)) aLayer ->
               GetClearance h this aLayer (Some (Unconnected b)) aSource =
                 (netclass ← GetEffectiveNetclass h this;
                  Ok (spec_accumulate (cands netclass) (0, aSource)))).
  { intros Hov Hr.
    rewrite (GetClearance_level3 h this aLayer (Some (Unconnected b)) aSource board Hb
               (conj Hov I) Hr).
    destruct (GetEffectiveNetclass h this) as [netclass|]; reflexivity. }
  split; [|split].
  - intros Hpos.
    exact (GetClearance_level1 h this aLayer (Some (Unconnected b)) aSource board Hb Hpos).
  - exact H3.
  - intros Hov Hr Hl c s. rewrite (H3 Hov Hr).
    destruct (GetEffectiveNetclass h this) as [netclass|]; [|discriminate].
    cbn [mbind result_bind]. intros Heq.
    apply (f_equal clearance_of) in Heq.
    rewrite clearance_of_accumulate in Heq. injection Heq as <-.
    unfold cands, edge. rewrite bool_decide_eq_true_2 by exact Hl.
    rewrite !max_clearance_app.
    assert (He : max_clearance [(m_CopperEdgeClearance bds, "board edge")]
                 = Z.max (m_CopperEdgeClearance bds) 0) by reflexivity.
    lia.
Qed.

Lemma C10_unconnected_second_item_witness :
  GetClearance (Sample.heap (Sample.board 150 250 []))
    (Sample.item (Some 0%nat) (Layer 0) (Some Sample.net2) 0 0) (Layer 0)
    (Some Sample.edge_segment) (Some "")
  = Ok (250, Some "board edge").
Proof.
  refine (proj1 (proj2 (C10_unconnected_second_item
                          (Sample.heap (Sample.board 150 250 []))
                          (Sample.item (Some 0%nat) (Layer 0) (Some Sample.net2) 0 0)
                          (Layer 0) {| m_Parent := Some 0%nat; m_Layer := Edge_Cuts |}
                          (Some "") (Sample.board 150 250 []) _)) _ _).
  - reflexivity.
  - vm_compute. discriminate.
  - reflexivity.
Defined.

(** C6, as amended.  The clearance [GetClearance] returns is non-negative
    whenever the matching rule of clearance kind, if there is one, has a
    non-negative minimum bound; the rule's bound is returned as it is.
    And [GetClearance] does return a value whenever the effective
    netclasses of the connected items it is given can be resolved. *)
Theorem C6_nonnegative_clearance h this aLayer aItem aSource :
  (forall constraint,
      fst (GetConstraint h (Connected this) aItem DRC_CONSTRAINT_TYPE_CLEARANCE aLayer None)
        = Some constraint ->
      0 <= Min (m_Value constraint)) ->
  (forall c s, GetClearance h this aLayer aItem aSource = Ok (c, s) -> 0 <= c) /\
  (GetEffectiveNetclass h this <> NullDeref ->
   second_effective_netclass h aItem <> NullDeref ->
   exists c s, GetClearance h this aLayer aItem aSource = Ok (c, s) /\ 0 <= c).
Proof.
  intros Hrule.
  assert (Hval : forall c s, GetClearance h this aLayer aItem aSource = Ok (c, s) -> 0 <= c).
  { intros c s.
    destruct (GetBoard h (base this)) as [board|] eqn:Hb.
    - destruct (Z_lt_dec 0 (max_override this aItem)) as [Hpos|Hnpos].
      + rewrite (GetClearance_level1 _ _ _ _ _ _ Hb Hpos). intros [= <- _]. lia.
      + apply not_positive_no_override in Hnpos.
        destruct (fst (GetConstraint h (Connected this) aItem
                         DRC_CONSTRAINT_TYPE_CLEARANCE aLayer None))
          as [constraint|] eqn:Hc.
        * destruct (GetClearance_level2 h this aLayer aItem aSource board constraint
                      Hb Hnpos Hc) as [s' ->].
          intros [= <- _]. apply Hrule. reflexivity.
        * rewrite (GetClearance_level3 _ _ _ _ _ _ Hb Hnpos Hc).
          destruct (GetEffectiveNetclass h this) as [nc|]; [|discriminate].
          destruct (second_effective_netclass h aItem) as [nc2|]; [|discriminate].
          cbn [mbind result_bind]. intros Heq.
          apply (f_equal clearance_of) in Heq.
          rewrite clearance_of_accumulate in Heq. injection Heq as <-.
          apply max_clearance_nonneg.
    - unfold GetClearance. rewrite Hb. intros [= <- _]. lia. }
  split; [exact Hval|].
  intros HA HB.
  assert (Hret : exists c s, GetClearance h this aLayer aItem aSource = Ok (c, s)).
  { destruct (GetBoard h (base this)) as [board|] eqn:Hb.
    - destruct (Z_lt_dec 0 (max_override this aItem)) as [Hpos|Hnpos].
      + rewrite (GetClearance_level1 _ _ _ _ _ _ Hb Hpos). eauto.
      + apply not_positive_no_override in Hnpos.
        destruct (fst (GetConstraint h (Connected this) aItem
                         DRC_CONSTRAINT_TYPE_CLEARANCE aLayer None))
          as [constraint|] eqn:Hc.
        * destruct (GetClearance_level2 h this aLayer aItem aSource board constraint
                      Hb Hnpos Hc) as [s' ->]. eauto.
        * rewrite (GetClearance_level3 _ _ _ _ _ _ Hb Hnpos Hc).
          destruct (GetEffectiveNetclass h this) as [nc|]; [|congruence].
          destruct (second_effective_netclass h aItem) as [nc2|]; [|congruence].
          cbn [mbind result_bind].
          destruct (spec_accumulate _ _) as [c s]. eauto.
    - unfold GetClearance. rewrite Hb. eauto. }
  destruct Hret as (c & s & Heq). exists c, s. split; [exact Heq | exact (Hval c s Heq)].
Qed.

Lemma C6_nonnegative_clearance_witness :
  exists c s,
    GetClearance (Sample.heap (Sample.board 150 250 [Sample.rule "hv" 50]))
      (Sample.item (Some 0%nat) (Layer 0) (Some Sample.net3) 0 0) (Layer 0) None (Some "")
    = Ok (c, s) /\ 0 <= c.
Proof.
  refine (proj2 (C6_nonnegative_clearance
                   (Sample.heap (Sample.board 150 250 [Sample.rule "hv" 50]))
                   (Sample.item (Some 0%nat) (Layer 0) (Some Sample.net3) 0 0)
                   (Layer 0) None (Some "") _) _ _).
  - intros constraint H. vm_compute in H. injection H as <-. vm_compute. discriminate.
  - vm_compute. discriminate.
  - vm_compute. discriminate.
Defined.

(** C6, the claim as stated fails: a matching rule whose minimum bound is
    negative makes [GetClearance] return that negative bound. *)
Lemma C6_negative_rule_counterexample :
  GetClearance (Sample.heap (Sample.board 150 250 [Sample.rule "neg" (-5)]))
    (Sample.item (Some 0%nat) (Layer 0) (Some Sample.net3) 0 0) (Layer 0) None (Some "")
  = Ok (-5, Some "'neg' rule")
  /\ ~ 0 <= -5.
Proof. split; [reflexivity | lia]. Qed.

(** C7, the claim as stated fails: only the second item's layer is tested
    against [Edge_Cuts], so with one item on [Edge_Cuts] and the other not
    the copper-edge clearance counts in one order and not in the other.
    Both items are on the same board, neither has an override and the
    board has no rules. *)
Lemma C7_swap_counterexample :
  let h := Sample.heap (Sample.board 150 250 []) in
  let a := Sample.item (Some 0%nat) Edge_Cuts (Some Sample.net1) 0 0 in
  let b := Sample.item (Some 0%nat) (Layer 0) (Some Sample.net2) 0 0 in
  GetBoard h (base a) = GetBoard h (base b) /\
  no_override a (Some (Connected b)) /\
  no_rule h a (Some (Connected b)) (Layer 0) /\
  no_rule h b (Some (Connected a)) (Layer 0) /\
  clearance_of (GetClearance h a (Layer 0) (Some (Connected b)) None) = Ok 200 /\
  clearance_of (GetClearance h b (Layer 0) (Some (Connected a)) None) = Ok 250 /\
  clearance_of (GetClearance h a (Layer 0) (Some (Connected b)) None) <>
  clearance_of (GetClearance h b (Layer 0) (Some (Connected a)) None).
Proof.
  cbv zeta. repeat split; try reflexivity; try (vm_compute; discriminate).
Qed.

(** C7, as amended.  For two connected items on the same board, neither
    with a strictly positive override and with no rule matching in either
    order, that are both on [Edge_Cuts] or both off it, swapping the items
    leaves the clearance [GetClearance] returns unchanged (and if one order
    fails on a missing net record, so does the other). *)
Theorem C7_swap_symmetric h a b aLayer sA sB r :
  m_Parent (base a) = Some r ->
  m_Parent (base b) = Some r ->
  no_override a (Some (Connected b)) ->
  no_rule h a (Some (Connected b)) aLayer ->
  no_rule h b (Some (Connected a)) aLayer ->
  (m_Layer (base a) = Edge_Cuts <-> m_Layer (base b) = Edge_Cuts) ->
  clearance_of (GetClearance h a aLayer (Some (Connected b)) sA) =
  clearance_of (GetClearance h b aLayer (Some (Connected a)) sB).
Proof.
  intros Pa Pb [HovA HovB] Hab Hba Hedge. cbn in HovB.
  assert (Ba : GetBoard h (base a) = Some (boards h r))
    by (unfold GetBoard; rewrite Pa; reflexivity).
  assert (Bb : GetBoard h (base b) = Some (boards h r))
    by (unfold GetBoard; rewrite Pb; reflexivity).
  rewrite (GetClearance_level3 h a aLayer (Some (Connected b)) sA _ Ba (conj HovA HovB) Hab).
  rewrite (GetClearance_level3 h b aLayer (Some (Connected a)) sB _ Bb (conj HovB HovA) Hba).
  unfold second_effective_netclass. cbn [dynamic_cast_connected].
  destruct (GetEffectiveNetclass h a) as [na|], (GetEffectiveNetclass h b) as [nb|];
    cbn [mbind result_bind]; try reflexivity.
  rewrite !clearance_of_accumulate. f_equal.
  unfold spec_level3_candidates, edge_candidate, GetLayer. cbn [item_base dynamic_cast_connected].
  rewrite (bool_decide_ext _ _ Hedge).
  rewrite !max_clearance_app.
  generalize (max_clearance (if bool_decide (m_Layer (base b) = Edge_Cuts)
                             then [(m_CopperEdgeClearance (GetDesignSettings (boards h r)),
                                    "board edge"%string)]
                             else [])).
  intros e. destruct na as [na|], nb as [nb|];
    unfold max_clearance; cbn [netclass_candidate local_candidate map fold_right fst];
    f_equal; apply max_swap.
Qed.

Lemma C7_swap_symmetric_witness :
  clearance_of
    (GetClearance (Sample.heap (Sample.board 150 250 []))
       (Sample.item (Some 0%nat) (Layer 0) (Some Sample.net3) 0 0) (Layer 0)
       (Some (Connected (Sample.item (Some 0%nat) (Layer 31) (Some Sample.net2) 0 320)))
       None) =
  clearance_of
    (GetClearance (Sample.heap (Sample.board 150 250 []))
       (Sample.item (Some 0%nat) (Layer 31) (Some Sample.net2) 0 320) (Layer 0)
       (Some (Connected (Sample.item (Some 0%nat) (Layer 0) (Some Sample.net3) 0 0)))
       (Some "")).
Proof.
  apply (C7_swap_symmetric
           (Sample.heap (Sample.board 150 250 []))
           (Sample.item (Some 0%nat) (Layer 0) (Some Sample.net3) 0 0)
           (Sample.item (Some 0%nat) (Layer 31) (Some Sample.net2) 0 320)
           (Layer 0) None (Some "") 0%nat).
  - reflexivity.
  - reflexivity.
  - split; vm_compute; discriminate.
  - reflexivity.
  - reflexivity.
  - split; discriminate.
Defined.

(** C8. Raising the minimum clearance of a board, all else equal, never
    lowers what [GetClearance] returns (and does not turn a value into a
    failure or a failure into a value); when a strictly positive override
    or a matching rule decides the result, the two results are equal. *)
Theorem C8_monotone_in_board_minimum h r m1 m2 this aLayer aItem aSource :
  m1 <= m2 ->
  let r1 := clearance_of (GetClearance (set_MinClearance h r m1) this aLayer aItem aSource) in
  let r2 := clearance_of (GetClearance (set_MinClearance h r m2) this aLayer aItem aSource) in
  result_le r1 r2 /\
  (0 < max_override this aItem \/
   is_Some (fst (GetConstraint h (Connected this) aItem
                   DRC_CONSTRAINT_TYPE_CLEARANCE aLayer None)) ->
   r1 = r2).
Proof.
  intros Hm r1 r2. subst r1 r2.
  destruct (m_Parent (base this)) as [r'|] eqn:Hp.
  2:{ assert (Hb : forall m, GetBoard (set_MinClearance h r m) (base this) = None)
        by (intros m; rewrite GetBoard_set_MinClearance, Hp; reflexivity).
      unfold GetClearance. rewrite !Hb. cbn. split; [lia | reflexivity]. }
  assert (Hb : forall m, GetBoard (set_MinClearance h r m) (base this) =
                 Some (if decide (r' = r) then with_MinClearance m (boards h r')
                       else boards h r'))
    by (intros m; rewrite GetBoard_set_MinClearance, Hp; reflexivity).
  destruct (Z_lt_dec 0 (max_override this aItem)) as [Hpos|Hnpos].
  { rewrite !(GetClearance_level1 _ _ _ _ _ _ (Hb _) Hpos). cbn.
    split; [lia | reflexivity]. }
  apply not_positive_no_override in Hnpos.
  destruct (fst (GetConstraint h (Connected this) aItem
                   DRC_CONSTRAINT_TYPE_CLEARANCE aLayer None))
    as [constraint|] eqn:Hc.
  { assert (Hc' : forall m, fst (GetConstraint (set_MinClearance h r m) (Connected this) aItem
                                   DRC_CONSTRAINT_TYPE_CLEARANCE aLayer None) = Some constraint)
      by (intros m; rewrite GetConstraint_set_MinClearance; exact Hc).
    destruct (GetClearance_level2 _ this aLayer aItem aSource _ constraint
                (Hb m1) Hnpos (Hc' m1)) as [s1 ->].
    destruct (GetClearance_level2 _ this aLayer aItem aSource _ constraint
                (Hb m2) Hnpos (Hc' m2)) as [s2 ->].
    cbn. split; [lia | reflexivity]. }
  assert (Hr : forall m, no_rule (set_MinClearance h r m) this aItem aLayer)
    by (intros m; unfold no_rule; rewrite GetConstraint_set_MinClearance; exact Hc).
  rewrite !(GetClearance_level3 _ _ _ _ _ _ (Hb _) Hnpos (Hr _)).
  unfold second_effective_netclass. rewrite !GetEffectiveNetclass_set_MinClearance.
  split.
  - destruct (GetEffectiveNetclass h this) as [na|]; [|exact I].
    destruct (match dynamic_cast_connected aItem with
              | Some second => GetEffectiveNetclass (set_MinClearance h r m1) second
              | None => Ok None
              end) as [nb|] eqn:E1.
    + assert (E2 : match dynamic_cast_connected aItem with
                   | Some second => GetEffectiveNetclass (set_MinClearance h r m2) second
                   | None => Ok None
                   end = Ok nb).
      { destruct (dynamic_cast_connected aItem); [|exact E1].
        rewrite GetEffectiveNetclass_set_MinClearance in *. exact E1. }
      rewrite E2. cbn [mbind result_bind]. rewrite !clearance_of_accumulate.
      unfold result_le, spec_level3_candidates. rewrite !max_clearance_app.
      destruct (decide (r' = r)); [|apply Z.le_refl].
      apply Z.max_le_compat_r. unfold max_clearance. cbn. lia.
    + assert (E2 : match dynamic_cast_connected aItem with
                   | Some second => GetEffectiveNetclass (set_MinClearance h r m2) second
                   | None => Ok None
                   end = NullDeref).
      { destruct (dynamic_cast_connected aItem); [|exact E1].
        rewrite GetEffectiveNetclass_set_MinClearance in *. exact E1. }
      rewrite E2. exact I.
  - intros [Hpos | [c' Hc']]; [|discriminate].
    pose proof (no_override_not_positive _ _ Hnpos). lia.
Qed.

Lemma C8_monotone_in_board_minimum_witness :
  result_le
    (clearance_of
       (GetClearance (set_MinClearance (Sample.heap (Sample.board 150 250 [])) 0%nat 100)
          (Sample.item (Some 0%nat) (Layer 0) (Some Sample.net1) 0 0) (Layer 0)
          (Some (Connected (Sample.item (Some 0%nat) (Layer 0) (Some Sample.net2) 0 0)))
          None))
    (clearance_of
       (GetClearance (set_MinClearance (Sample.heap (Sample.board 150 250 [])) 0%nat 400)
          (Sample.item (Some 0%nat) (Layer 0) (Some Sample.net1) 0 0) (Layer 0)
          (Some (Connected (Sample.item (Some 0%nat) (Layer 0) (Some Sample.net2) 0 0)))
          None)).
Proof.
  refine (proj1 (C8_monotone_in_board_minimum
                   (Sample.heap (Sample.board 150 250 [])) 0%nat 100 400
                   (Sample.item (Some 0%nat) (Layer 0) (Some Sample.net1) 0 0) (Layer 0)
                   (Some (Connected (Sample.item (Some 0%nat) (Layer 0) (Some Sample.net2) 0 0)))
                   None _)).
  vm_compute. discriminate.
Defined.

(** ** SetNetCode *)

Lemma not_null_false {A : Type} (o : option A) :
  bool_decide (o <> None) = false <-> o = None.
Proof.
  destruct o as [a|].
  - split; [|discriminate]. intros H. apply bool_decide_eq_false in H.
    exfalso. apply H. discriminate.
  - split; [reflexivity|]. intros _. apply bool_decide_eq_false.
    intros H. apply H. reflexivity.
Qed.

Lemma SetNetCode_netinfo h this aNetCode aNoAssert :
  m_netinfo (fst (SetNetCode h this aNetCode aNoAssert)) =
    match GetBoard h (base this) with
    | Some board =>
        if effective_net_code this aNetCode >=? 0
        then FindNet board (effective_net_code this aNetCode)
        else Some (OrphanedItem h)
    | None => Some (OrphanedItem h)
    end.
Proof.
  unfold SetNetCode, effective_net_code. cbn [fst m_netinfo].
  destruct (IsOnCopperLayer this); reflexivity.
Qed.

Lemma SetNetCode_snd h this aNetCode aNoAssert :
  snd (SetNetCode h this aNetCode aNoAssert) =
    bool_decide (m_netinfo (fst (SetNetCode h this aNetCode aNoAssert)) <> None).
Proof. reflexivity. Qed.

(** X1. [SetNetCode] answers [false] exactly when the item has a board, the
    code it proceeds with is not negative and the board's registry holds no
    record for it; the item is then left with a null net record. *)
Theorem X1_SetNetCode_false_iff_missing h this aNetCode aNoAssert :
  (snd (SetNetCode h this aNetCode aNoAssert) = false <->
   exists board, GetBoard h (base this) = Some board /\
                 0 <= effective_net_code this aNetCode /\
                 FindNet board (effective_net_code this aNetCode) = None) /\
  (snd (SetNetCode h this aNetCode aNoAssert) = false <->
   m_netinfo (fst (SetNetCode h this aNetCode aNoAssert)) = None).
Proof.
  rewrite SetNetCode_snd, not_null_false, SetNetCode_netinfo.
  split; [|reflexivity].
  destruct (GetBoard h (base this)) as [board|].
  - destruct (Z.geb_spec (effective_net_code this aNetCode) 0) as [Hge|Hlt].
    + split.
      * intros Hf. exists board. auto.
      * intros (b & [= <-] & _ & Hf). exact Hf.
    + split; [discriminate|]. intros (b & _ & Hge & _). lia.
  - split; [discriminate|]. intros (b & [=] & _).
Qed.

(** X2. An item without a board, and an item on copper given a negative
    code, end with the orphaned net record, the one a newly constructed
    item holds, and [SetNetCode] answers [true]; nothing else of the item
    changes. *)
Theorem X2_SetNetCode_orphaned h this aNetCode aNoAssert :
  GetBoard h (base this) = None \/ (IsOnCopperLayer this = true /\ aNetCode < 0) ->
  m_netinfo (fst (SetNetCode h this aNetCode aNoAssert)) =
    m_netinfo (BOARD_CONNECTED_ITEM_new h (base this) (IsOnCopperLayer this)
                 (m_LocalClearanceOverrides this) (m_LocalClearanceOverridesSource this)
                 (m_LocalClearance this) (m_LocalClearanceSource this)) /\
  m_netinfo (fst (SetNetCode h this aNetCode aNoAssert)) = Some (OrphanedItem h) /\
  snd (SetNetCode h this aNetCode aNoAssert) = true /\
  base (fst (SetNetCode h this aNetCode aNoAssert)) = base this /\
  m_LocalClearanceOverrides (fst (SetNetCode h this aNetCode aNoAssert)) =
    m_LocalClearanceOverrides this /\
  m_LocalClearance (fst (SetNetCode h this aNetCode aNoAssert)) = m_LocalClearance this.
Proof.
  intros H.
  assert (Hn : m_netinfo (fst (SetNetCode h this aNetCode aNoAssert)) = Some (OrphanedItem h)).
  { rewrite SetNetCode_netinfo. unfold effective_net_code.
    destruct H as [-> | [-> Hneg]]; [reflexivity|].
    destruct (GetBoard h (base this)); [|reflexivity].
    rewrite Z.geb_leb. replace (0 <=? aNetCode) with false; [reflexivity|].
    symmetry. apply Z.leb_gt. exact Hneg. }
  split; [exact Hn|]. split; [exact Hn|]. split.
  - rewrite SetNetCode_snd, Hn. apply bool_decide_eq_true. discriminate.
  - repeat split.
Qed.

Lemma X2_SetNetCode_orphaned_witness :
  m_netinfo
    (fst (SetNetCode (Sample.heap (Sample.board 150 250 []))
            (Sample.item (Some 0%nat) (Layer 0) (Some Sample.net2) 0 0) (-1) false))
  = Some Sample.orphan.
Proof.
  refine (proj1 (proj2 (X2_SetNetCode_orphaned
                          (Sample.heap (Sample.board 150 250 []))
                          (Sample.item (Some 0%nat) (Layer 0) (Some Sample.net2) 0 0)
                          (-1) false _))).
  right. split; [reflexivity | vm_compute; reflexivity].
Defined.

(** X3. On a copper item of a board, a non-negative code the registry
    holds is stored as the record found, [SetNetCode] answers [true], and
    the item's effective netclass is from then on the Default netclass for
    a record with net code 0, the record's netclass for another code, and
    the Default netclass when that one is null. *)
Theorem X3_SetNetCode_found h this aNetCode aNoAssert board netinfo :
  IsOnCopperLayer this = true ->
  GetBoard h (base this) = Some board ->
  0 <= aNetCode ->
  FindNet board aNetCode = Some netinfo ->
  SetNetCode h this aNetCode aNoAssert =
    (fst (SetNetCode h this aNetCode aNoAssert), true) /\
  m_netinfo (fst (SetNetCode h this aNetCode aNoAssert)) = Some netinfo /\
  GetEffectiveNetclass h (fst (SetNetCode h this aNetCode aNoAssert)) =
    Ok (Some (if NETINFO_ITEM.GetNet netinfo =? 0
              then m_Default (GetDesignSettings board)
              else match NETINFO_ITEM.GetNetClass netinfo with
                   | Some nc => nc
                   | None => m_Default (GetDesignSettings board)
                   end)).
Proof.
  intros Hcu Hb Hge Hf.
  assert (Hn : m_netinfo (fst (SetNetCode h this aNetCode aNoAssert)) = Some netinfo).
  { rewrite SetNetCode_netinfo, Hb. unfold effective_net_code. rewrite Hcu.
    rewrite Z.geb_leb. replace (0 <=? aNetCode) with true; [exact Hf|].
    symmetry. apply Z.leb_le. exact Hge. }
  split; [|split; [exact Hn|]].
  - rewrite (surjective_pairing (SetNetCode h this aNetCode aNoAssert)) at 1.
    rewrite SetNetCode_snd, Hn. reflexivity.
  - unfold GetEffectiveNetclass, GetNetClass. rewrite Hn.
    change (base (fst (SetNetCode h this aNetCode aNoAssert))) with (base this).
    rewrite Hb. unfold GetDefault.
    destruct (NETINFO_ITEM.GetNet netinfo =? 0); [reflexivity|].
    destruct (NETINFO_ITEM.GetNetClass netinfo); reflexivity.
Qed.

Lemma X3_SetNetCode_found_witness :
  GetEffectiveNetclass (Sample.heap (Sample.board 150 250 []))
    (fst (SetNetCode (Sample.heap (Sample.board 150 250 []))
            (Sample.item (Some 0%nat) (Layer 0) None 0 0) 2 false))
  = Ok (Some Sample.Power).
Proof.
  refine (proj2 (proj2 (X3_SetNetCode_found
                          (Sample.heap (Sample.board 150 250 []))
                          (Sample.item (Some 0%nat) (Layer 0) None 0 0) 2 false
                          (Sample.board 150 250 []) Sample.net2 _ _ _ _))).
  - reflexivity.
  - reflexivity.
  - vm_compute. discriminate.
  - reflexivity.
Defined.

(** X4. [SetNetCode] touches the net record only: a clearance decided by a
    strictly positive local override is the same before and after the net
    of either item is reassigned. *)
Theorem X4_SetNetCode_keeps_override_clearance h this other c1 a1 c2 a2 aLayer aSource board :
  GetBoard h (base this) = Some board ->
  0 < max_override this (Some (Connected other)) ->
  GetClearance h (fst (SetNetCode h this c1 a1)) aLayer
    (Some (Connected (fst (SetNetCode h other c2 a2)))) aSource =
  GetClearance h this aLayer (Some (Connected other)) aSource.
Proof.
  intros Hb Hpos.
  rewrite (GetClearance_level1 h this aLayer (Some (Connected other)) aSource board Hb Hpos).
  apply (GetClearance_level1 h (fst (SetNetCode h this c1 a1)) aLayer
           (Some (Connected (fst (SetNetCode h other c2 a2)))) aSource board Hb Hpos).
Qed.

Lemma X4_SetNetCode_keeps_override_clearance_witness :
  GetClearance (Sample.heap (Sample.board 150 250 []))
    (fst (SetNetCode (Sample.heap (Sample.board 150 250 []))
            (Sample.item (Some 0%nat) (Layer 0) (Some Sample.net1) 0 0) 3 false))
    (Layer 0)
    (Some (Connected
             (fst (SetNetCode (Sample.heap (Sample.board 150 250 []))
                     (Sample.item (Some 0%nat) (Layer 0) (Some Sample.net2) 120 0) 7 true))))
    (Some "") =
  GetClearance (Sample.heap (Sample.board 150 250 []))
    (Sample.item (Some 0%nat) (Layer 0) (Some Sample.net1) 0 0) (Layer 0)
    (Some (Connected (Sample.item (Some 0%nat) (Layer 0) (Some Sample.net2) 120 0)))
    (Some "").
Proof.
  apply (X4_SetNetCode_keeps_override_clearance
           (Sample.heap (Sample.board 150 250 []))
           (Sample.item (Some 0%nat) (Layer 0) (Some Sample.net1) 0 0)
           (Sample.item (Some 0%nat) (Layer 0) (Some Sample.net2) 120 0)
           3 false 7 true (Layer 0) (Some "") (Sample.board 150 250 [])).
  - reflexivity.
  - vm_compute. reflexivity.
Defined.

(** ** GetNetClass and GetEffectiveNetclass *)

(** X5. [GetNetClass] answers the net record's own netclass whenever there
    is one, without looking at the board or at the net code.  So for a net
    code 0 whose record points to a netclass, it answers that netclass
    where [GetEffectiveNetclass] answers the board's Default; for every
    other net code the two agree. *)
Theorem X5_GetNetClass_versus_effective h this netinfo :
  m_netinfo this = Some netinfo ->
  (forall nc, NETINFO_ITEM.GetNetClass netinfo = Some nc ->
              GetNetClass h this = Ok (Some nc)) /\
  (forall nc board,
      NETINFO_ITEM.GetNetClass netinfo = Some nc ->
      NETINFO_ITEM.GetNet netinfo = 0 ->
      GetBoard h (base this) = Some board ->
      nc <> m_Default (GetDesignSettings board) ->
      GetNetClass h this <> GetEffectiveNetclass h this) /\
  (NETINFO_ITEM.GetNet netinfo <> 0 ->
   GetNetClass h this = GetEffectiveNetclass h this).
Proof.
  intros Hn. split; [|split].
  - intros nc Hnc. unfold GetNetClass. rewrite Hn, Hnc. reflexivity.
  - intros nc board Hnc Hz Hb Hne.
    unfold GetEffectiveNetclass, GetNetClass. rewrite Hn, Hnc, Hz, Hb.
    cbn [Z.eqb]. unfold GetDefault. congruence.
  - intros Hz. unfold GetEffectiveNetclass. rewrite Hn.
    apply Z.eqb_neq in Hz. rewrite Hz. reflexivity.
Qed.

Lemma X5_GetNetClass_versus_effective_witness :
  GetNetClass (Sample.heap (Sample.board 150 250 []))
    (Sample.item None (Layer 0) (Some Sample.net0) 0 0)
  = Ok (Some Sample.Wide).
Proof.
  refine (proj1 (X5_GetNetClass_versus_effective
                   (Sample.heap (Sample.board 150 250 []))
                   (Sample.item None (Layer 0) (Some Sample.net0) 0 0)
                   Sample.net0 _) Sample.Wide _); reflexivity.
Defined.

(** When [GetEffectiveNetclass] fails. *)
Lemma GetEffectiveNetclass_NullDeref_iff h this :
  (GetEffectiveNetclass h this = NullDeref <->
   m_netinfo this = None \/
   (GetBoard h (base this) = None /\
    exists netinfo, m_netinfo this = Some netinfo /\
                    (NETINFO_ITEM.GetNet netinfo = 0 \/
                     NETINFO_ITEM.GetNetClass netinfo = None))) /\
  (GetEffectiveNetclass h this <> NullDeref ->
   exists nc, GetEffectiveNetclass h this = Ok (Some nc)).
Proof.
  unfold GetEffectiveNetclass, GetNetClass.
  destruct (m_netinfo this) as [netinfo|]; [|split; [split; auto | congruence]].
  destruct (Z.eqb_spec (NETINFO_ITEM.GetNet netinfo) 0) as [Hz|Hz].
  - destruct (GetBoard h (base this)) as [board|].
    + split; [|eauto]. split; [discriminate|].
      intros [[=] | [[=] _]].
    + split; [|congruence]. split; [|reflexivity].
      intros _. right. split; [reflexivity|]. exists netinfo. auto.
  - destruct (NETINFO_ITEM.GetNetClass netinfo) as [nc|] eqn:Hnc.
    + split; [|eauto]. split; [discriminate|].
      intros [[=] | [_ (n & [= <-] & [Hz' | Hn])]]; congruence.
    + destruct (GetBoard h (base this)) as [board|].
      * split; [|eauto]. split; [discriminate|].
        intros [[=] | [[=] _]].
      * split; [|congruence]. split; [|reflexivity].
        intros _. right. split; [reflexivity|]. exists netinfo. auto.
Qed.

(** X6. [GetEffectiveNetclass] dereferences a null pointer exactly when the
    item has no net record, or has no board while its net code is 0 or its
    net record has no netclass; in every other state it answers a
    netclass. *)
Theorem X6_GetEffectiveNetclass_failure h this :
  (GetEffectiveNetclass h this = NullDeref <->
   m_netinfo this = None \/
   (GetBoard h (base this) = None /\
    exists netinfo, m_netinfo this = Some netinfo /\
                    (NETINFO_ITEM.GetNet netinfo = 0 \/
                     NETINFO_ITEM.GetNetClass netinfo = None))) /\
  (GetEffectiveNetclass h this <> NullDeref ->
   exists nc, GetEffectiveNetclass h this = Ok (Some nc)).
Proof. exact (GetEffectiveNetclass_NullDeref_iff h this). Qed.

(** ** GetClearance: failure, labels, non-interference *)

Lemma write_source_is_Some label s : is_Some (write_source label s) <-> is_Some s.
Proof. destruct s; cbn; split; intros [x H]; try discriminate; eauto. Qed.

Lemma consider_is_Some acc c : is_Some (snd (consider acc c)) <-> is_Some (snd acc).
Proof.
  unfold consider. destruct (fst c >? fst acc); [|reflexivity].
  cbn [snd]. apply write_source_is_Some.
Qed.

Lemma spec_accumulate_is_Some cands acc :
  is_Some (snd (spec_accumulate cands acc)) <-> is_Some (snd acc).
Proof.
  unfold spec_accumulate. revert acc.
  induction cands as [|c cands IH]; intros acc; cbn [fold_left]; [reflexivity|].
  rewrite IH. apply consider_is_Some.
Qed.

Lemma GetConstraint_is_Some h a b ty l s :
  is_Some (snd (GetConstraint h a b ty l s)) <-> is_Some s.
Proof.
  unfold GetConstraint.
  destruct (GetBoard h (item_base a)) as [board|]; [|reflexivity].
  destruct (find _ _); [|reflexivity]. cbn [snd]. apply write_source_is_Some.
Qed.

(** Level 2 with the label it reports. *)
Lemma GetClearance_level2_label h this aLayer aItem aSource board constraint :
  GetBoard h (base this) = Some board ->
  no_override this aItem ->
  fst (GetConstraint h (Connected this) aItem DRC_CONSTRAINT_TYPE_CLEARANCE aLayer None)
    = Some constraint ->
  exists s, GetClearance h this aLayer aItem aSource = Ok (Min (m_Value constraint), s) /\
            (is_Some s <-> is_Some aSource).
Proof.
  intros Hb Hov Hc. destruct (level1_silent _ _ Hov) as [HA HB].
  assert (Hrule : exists s,
             GetRuleClearance h this aItem aLayer 0 aSource
               = (true, Min (m_Value constraint), s) /\ (is_Some s <-> is_Some aSource)).
  { unfold GetRuleClearance.
    rewrite <- (GetConstraint_fst _ _ _ _ _ aSource) in Hc.
    pose proof (GetConstraint_is_Some h (Connected this) aItem
                  DRC_CONSTRAINT_TYPE_CLEARANCE aLayer aSource) as Hs.
    destruct (GetConstraint _ _ _ _ _ aSource) as [o s0]. cbn [fst snd] in *. subst o.
    eexists. split; [reflexivity|]. rewrite <- Hs.
    destruct s0; cbn; split; intros [x H]; try discriminate; eauto. }
  destruct Hrule as (s & Hrule & Hs). exists s. split; [|exact Hs].
  unfold GetClearance. rewrite Hb. cbn [fst GetLocalClearanceOverrides]. rewrite HA.
  destruct (dynamic_cast_connected aItem) as [second|].
  - rewrite HB. cbn [negb Z.eqb]. rewrite Hrule. reflexivity.
  - cbn [negb Z.eqb]. rewrite Hrule. reflexivity.
Qed.

(** The three ways [GetClearance] proceeds for an item that has a board. *)
Lemma GetClearance_cases h this aLayer aItem board :
  GetBoard h (base this) = Some board ->
  0 < max_override this aItem \/
  (no_override this aItem /\
   exists constraint,
     fst (GetConstraint h (Connected this) aItem DRC_CONSTRAINT_TYPE_CLEARANCE aLayer None)
       = Some constraint) \/
  (no_override this aItem /\ no_rule h this aItem aLayer).
Proof.
  intros Hb.
  destruct (Z_lt_dec 0 (max_override this aItem)) as [Hpos|Hnpos]; [left; exact Hpos|].
  apply not_positive_no_override in Hnpos. right.
  destruct (fst (GetConstraint h (Connected this) aItem
                   DRC_CONSTRAINT_TYPE_CLEARANCE aLayer None)) as [c|] eqn:Hc.
  - left. eauto.
  - right. split; [exact Hnpos | exact Hc].
Qed.

(** When [GetClearance] fails. *)
Lemma GetClearance_NullDeref_iff h this aLayer aItem aSource :
  GetClearance h this aLayer aItem aSource = NullDeref <->
  (exists board, GetBoard h (base this) = Some board) /\
  no_override this aItem /\
  no_rule h this aItem aLayer /\
  (GetEffectiveNetclass h this = NullDeref \/
   second_effective_netclass h aItem = NullDeref).
Proof.
  destruct (GetBoard h (base this)) as [board|] eqn:Hb.
  2:{ unfold GetClearance. rewrite Hb. split; [discriminate|].
      intros [[b [=]] _]. }
  destruct (GetClearance_cases h this aLayer aItem board Hb)
    as [Hpos | [[Hov [c Hc]] | [Hov Hr]]].
  - rewrite (GetClearance_level1 _ _ _ _ _ _ Hb Hpos). split; [discriminate|].
    intros (_ & Hov & _). apply no_override_not_positive in Hov. lia.
  - destruct (GetClearance_level2 h this aLayer aItem aSource board c Hb Hov Hc) as [s ->].
    split; [discriminate|]. intros (_ & _ & Hr & _). unfold no_rule in Hr. congruence.
  - rewrite (GetClearance_level3 _ _ _ _ _ _ Hb Hov Hr). split.
    + intros H. split; [eauto|]. split; [exact Hov|]. split; [exact Hr|].
      destruct (GetEffectiveNetclass h this) as [na|]; [|left; reflexivity].
      destruct (second_effective_netclass h aItem) as [nb|]; [|right; reflexivity].
      discriminate.
    + intros (_ & _ & _ & [-> | HB]); [reflexivity|].
      rewrite HB. destruct (GetEffectiveNetclass h this); reflexivity.
Qed.

(** X7. [GetClearance] dereferences a null pointer only in Level 3: exactly
    when the item has a board, no override is strictly positive, no rule
    matches and the effective netclass of the item or of the connected
    second item cannot be resolved.  It never fails for an item without a
    board, nor when an override or a rule decides. *)
Theorem X7_GetClearance_failure h this aLayer aItem aSource :
  GetClearance h this aLayer aItem aSource = NullDeref <->
  (exists board, GetBoard h (base this) = Some board) /\
  no_override this aItem /\
  no_rule h this aItem aLayer /\
  (GetEffectiveNetclass h this = NullDeref \/
   second_effective_netclass h aItem = NullDeref).
Proof. exact (GetClearance_NullDeref_iff h this aLayer aItem aSource). Qed.

(** X8. Asking for the label, or not, and whatever the caller's string
    holds, does not change the clearance [GetClearance] returns. *)
Theorem X8_value_independent_of_label h this aLayer aItem s1 s2 :
  clearance_of (GetClearance h this aLayer aItem s1) =
  clearance_of (GetClearance h this aLayer aItem s2).
Proof.
  destruct (GetBoard h (base this)) as [board|] eqn:Hb.
  2:{ unfold GetClearance. rewrite Hb. reflexivity. }
  destruct (GetClearance_cases h this aLayer aItem board Hb)
    as [Hpos | [[Hov [c Hc]] | [Hov Hr]]].
  - rewrite !(GetClearance_level1 _ _ _ _ _ _ Hb Hpos). reflexivity.
  - destruct (GetClearance_level2 h this aLayer aItem s1 board c Hb Hov Hc) as [t1 ->].
    destruct (GetClearance_level2 h this aLayer aItem s2 board c Hb Hov Hc) as [t2 ->].
    reflexivity.
  - rewrite !(GetClearance_level3 _ _ _ _ _ _ Hb Hov Hr).
    destruct (GetEffectiveNetclass h this) as [na|]; [|reflexivity].
    destruct (second_effective_netclass h aItem) as [nb|]; [|reflexivity].
    cbn [mbind result_bind]. rewrite !clearance_of_accumulate. reflexivity.
Qed.

(** The label the strict-greater fold ends with: that of the first
    candidate reaching the final value, or the initial one when no
    candidate exceeds the initial value. *)
Lemma spec_accumulate_label cands a l :
  let m := fold_left Z.max (map fst cands) a in
  spec_accumulate cands (a, Some l) =
    (m, if m >? a then first_reaching m cands else Some l).
Proof.
  unfold spec_accumulate, first_reaching. revert a l.
  induction cands as [|c cands IH]; intros a l; cbn [fold_left map].
  - cbn zeta. rewrite gtb_false by lia. reflexivity.
  - cbn zeta. unfold consider at 2. cbn [fst snd write_source].
    assert (Hmono : forall x, x <= fold_left Z.max (map fst cands) x).
    { intros x. rewrite <- (Z.max_id x) at 2. rewrite fold_left_max_init. lia. }
    destruct (Z.gtb_spec (fst c) a) as [Hgt|Hle].
    + rewrite (IH (fst c) (snd c)). cbn zeta. rewrite Z.max_r by lia.
      set (m := fold_left Z.max (map fst cands) (fst c)).
      pose proof (Hmono (fst c)) as Hm. fold m in Hm.
      rewrite (gtb_true m a) by lia. cbn [find].
      destruct (Z.gtb_spec m (fst c)) as [Hgt'|Hle'].
      * rewrite bool_decide_eq_false_2 by lia. reflexivity.
      * rewrite bool_decide_eq_true_2 by lia. reflexivity.
    + rewrite (IH a l). cbn zeta. rewrite Z.max_l by lia.
      set (m := fold_left Z.max (map fst cands) a).
      destruct (Z.gtb_spec m a) as [Hgt'|Hle']; [|reflexivity].
      cbn [find]. rewrite bool_decide_eq_false_2 by lia. reflexivity.
Qed.

(** Level 2 with the label it writes. *)
Lemma GetClearance_level2_source h this aLayer aItem board constraint :
  GetBoard h (base this) = Some board ->
  no_override this aItem ->
  fst (GetConstraint h (Connected this) aItem DRC_CONSTRAINT_TYPE_CLEARANCE aLayer None)
    = Some constraint ->
  exists name, forall aSource,
    GetClearance h this aLayer aItem aSource =
      Ok (Min (m_Value constraint), write_source ("'" +:+ name +:+ "' rule") aSource).
Proof.
  intros Hb Hov Hc. destruct (level1_silent _ _ Hov) as [HA HB].
  assert (Hrule : exists name, forall c aSource,
             GetRuleClearance h this aItem aLayer c aSource =
               (true, Min (m_Value constraint),
                write_source ("'" +:+ name +:+ "' rule") aSource)).
  { unfold GetRuleClearance, GetConstraint in *. cbn [item_base] in *.
    rewrite Hb in *.
    destruct (find _ _) as [r|]; [|discriminate].
    cbn [fst] in Hc. injection Hc as <-.
    exists (m_RuleName r). intros c aSource. destruct aSource; reflexivity. }
  destruct Hrule as [name Hrule]. exists name. intros aSource.
  unfold GetClearance. rewrite Hb. cbn [fst GetLocalClearanceOverrides]. rewrite HA.
  destruct (dynamic_cast_connected aItem) as [second|].
  - rewrite HB. cbn [negb Z.eqb]. rewrite Hrule. reflexivity.
  - cbn [negb Z.eqb]. rewrite Hrule. reflexivity.
Qed.

(** X9. A non-zero clearance always comes with a label of its own: when a
    label is asked for and the clearance returned is not 0, the label is
    the one written by the level that decided, and it is the same whatever
    the caller's string held on entry.  The caller's text can come back
    only next to a clearance of 0. *)
Theorem X9_label_overwrites_callers_text h this aLayer aItem s1 s2 c label :
  GetClearance h this aLayer aItem (Some s1) = Ok (c, label) ->
  c <> 0 ->
  GetClearance h this aLayer aItem (Some s2) = Ok (c, label) /\
  exists text, label = Some text.
Proof.
  intros Heq Hc.
  destruct (GetBoard h (base this)) as [board|] eqn:Hb.
  2:{ unfold GetClearance in Heq. rewrite Hb in Heq. injection Heq as <- _.
      contradiction. }
  destruct (GetClearance_cases h this aLayer aItem board Hb)
    as [Hpos | [[Hov [k Hk]] | [Hov Hr]]].
  - rewrite (GetClearance_level1 _ _ _ _ (Some s1) _ Hb Hpos) in Heq.
    rewrite (GetClearance_level1 _ _ _ _ (Some s2) _ Hb Hpos).
    injection Heq as <- <-. split; [reflexivity | eexists; reflexivity].
  - destruct (GetClearance_level2_source h this aLayer aItem board k Hb Hov Hk)
      as [name Hname].
    rewrite (Hname (Some s1)) in Heq. rewrite (Hname (Some s2)).
    injection Heq as <- <-.
    split; [reflexivity | eexists; reflexivity].
  - rewrite (GetClearance_level3 _ _ _ _ (Some s1) _ Hb Hov Hr) in Heq.
    rewrite (GetClearance_level3 _ _ _ _ (Some s2) _ Hb Hov Hr).
    destruct (GetEffectiveNetclass h this) as [na|]; [|discriminate].
    destruct (second_effective_netclass h aItem) as [nb|]; [|discriminate].
    cbn [mbind result_bind] in *.
    remember (spec_level3_candidates (GetDesignSettings board) this na aItem nb)
      as cands eqn:Hcands.
    rewrite (spec_accumulate_label cands 0 s1) in Heq.
    rewrite (spec_accumulate_label cands 0 s2).
    cbn zeta in *.
    pose proof (fold_right_max_nonneg (map fst cands)) as Hn.
    rewrite <- fold_left_max_right in Hn.
    assert (Hex : forall l a, a < fold_left Z.max (map fst l) a ->
                    exists x : candidate,
                      In x l /\ fst x = fold_left Z.max (map fst l) a).
    { clear. induction l as [|x l IH]; intros a Ha; cbn [map fold_left] in *; [lia|].
      destruct (Z_lt_dec (Z.max a (fst x)) (fold_left Z.max (map fst l) (Z.max a (fst x))))
        as [Hlt|Hge].
      - destruct (IH _ Hlt) as (y & Hin & Hy). exists y. split; [right; exact Hin | exact Hy].
      - assert (Hle : Z.max a (fst x) <= fold_left Z.max (map fst l) (Z.max a (fst x))).
        { rewrite <- (Z.max_id (Z.max a (fst x))) at 2. rewrite fold_left_max_init. lia. }
        exists x. split; [left; reflexivity | lia]. }
    specialize (Hex cands 0).
    remember (fold_left Z.max (map fst cands) 0) as m eqn:Hmdef.
    assert (Hm : m = c) by congruence. subst c.
    assert (Hpos : 0 < m) by lia.
    rewrite (gtb_true m 0 Hpos) in *.
    assert (Hl : first_reaching m cands = label) by congruence. subst label.
    split; [reflexivity|].
    unfold first_reaching.
    match goal with
    | |- context [find ?f cands] => destruct (find f cands) as [x|] eqn:Hf
    end; [eexists; reflexivity|].
    exfalso. destruct (Hex Hpos) as (x & Hin & Hx).
    apply (find_none _ _ Hf) in Hin. cbn beta in Hin.
    apply bool_decide_eq_false in Hin. contradiction.
Qed.

Lemma X9_label_overwrites_callers_text_witness :
  GetClearance (Sample.heap (Sample.board 150 250 []))
    (Sample.item (Some 0%nat) (Layer 0) (Some Sample.net2) 0 0) (Layer 0)
    (Some Sample.edge_segment) (Some "another text")
  = Ok (250, Some "board edge").
Proof.
  refine (proj1 (X9_label_overwrites_callers_text
                   (Sample.heap (Sample.board 150 250 []))
                   (Sample.item (Some 0%nat) (Layer 0) (Some Sample.net2) 0 0) (Layer 0)
                   (Some Sample.edge_segment) "caller's text" "another text"
                   250 (Some "board edge") _ _)).
  - reflexivity.
  - discriminate.
Defined.

(** X10. In Level 3 the label tells the truth and ties go to the earlier
    candidate: when the accumulated clearance is strictly positive the
    label is that of the first candidate, in the order of evaluation, whose
    value equals the result; when no candidate is strictly positive the
    result is 0 and the caller's string is left as it was. *)
Theorem X10_level3_label h this aLayer aItem s board netclass secondNetclass :
  GetBoard h (base this) = Some board ->
  no_override this aItem ->
  no_rule h this aItem aLayer ->
  GetEffectiveNetclass h this = Ok netclass ->
  second_effective_netclass h aItem = Ok secondNetclass ->
  let cands :=
    spec_level3_candidates (GetDesignSettings board) this netclass aItem secondNetclass in
  GetClearance h this aLayer aItem (Some s) =
    Ok (max_clearance cands,
        if max_clearance cands >? 0
        then first_reaching (max_clearance cands) cands
        else Some s).
Proof.
  intros Hb Hov Hr HA HB cands.
  rewrite (GetClearance_level3_value _ _ _ _ _ _ _ _ Hb Hov Hr HA HB).
  fold cands. rewrite (spec_accumulate_label cands 0 s). cbn zeta.
  unfold max_clearance. rewrite fold_left_max_right. reflexivity.
Qed.

Lemma X10_level3_label_witness :
  GetClearance (Sample.heap (Sample.board 200 200 []))
    (Sample.item (Some 0%nat) (Layer 0) (Some Sample.net1) 0 200) (Layer 0)
    (Some Sample.edge_segment) (Some "")
  = Ok (200, Some "board minimum").
Proof.
  apply (X10_level3_label
           (Sample.heap (Sample.board 200 200 []))
           (Sample.item (Some 0%nat) (Layer 0) (Some Sample.net1) 0 200) (Layer 0)
           (Some Sample.edge_segment) "" (Sample.board 200 200 [])
           (Some Sample.Default) None).
  - reflexivity.
  - split; [vm_compute; discriminate | exact I].
  - reflexivity.
  - reflexivity.
  - reflexivity.
Defined.

(** What changing a board's copper-edge clearance leaves alone. *)
Lemma GetBoard_set_CopperEdgeClearance h r e i :
  GetBoard (set_CopperEdgeClearance h r e) i =
    match m_Parent i with
    | Some r' => Some (if decide (r' = r) then with_CopperEdgeClearance e (boards h r')
                       else boards h r')
    | None => None
    end.
Proof. unfold GetBoard. destruct (m_Parent i); reflexivity. Qed.

Lemma GetEffectiveNetclass_set_CopperEdgeClearance h r e i :
  GetEffectiveNetclass (set_CopperEdgeClearance h r e) i = GetEffectiveNetclass h i.
Proof.
  unfold GetEffectiveNetclass, GetNetClass. rewrite GetBoard_set_CopperEdgeClearance.
  unfold GetBoard. destruct (m_netinfo i) as [n|]; [|reflexivity].
  destruct (m_Parent (base i)) as [r'|]; cbn [fmap option_fmap option_map];
    [|reflexivity].
  destruct (decide (r' = r)); reflexivity.
Qed.

Lemma GetConstraint_set_CopperEdgeClearance h r e a b ty l s :
  GetConstraint (set_CopperEdgeClearance h r e) a b ty l s = GetConstraint h a b ty l s.
Proof.
  unfold GetConstraint. rewrite GetBoard_set_CopperEdgeClearance.
  unfold GetBoard. destruct (m_Parent (item_base a)) as [r'|];
    cbn [fmap option_fmap option_map]; [|reflexivity].
  destruct (decide (r' = r)); reflexivity.
Qed.

Lemma edge_candidate_off_edge bds aItem :
  match aItem with
  | Some item => GetLayer item <> Edge_Cuts
  | None => True
  end ->
  edge_candidate bds aItem = [].
Proof.
  intros H. unfold edge_candidate. destruct aItem as [item|]; [|reflexivity].
  rewrite bool_decide_eq_false_2 by exact H. reflexivity.
Qed.

(** X11. The copper-edge clearance is consulted for a second item on
    [Edge_Cuts] and for nothing else: with no second item, or one on
    another layer, [GetClearance] returns the same clearance and label
    whatever the copper-edge clearance of any board is set to. *)
Theorem X11_edge_clearance_unused_off_edge h r e this aLayer aItem aSource :
  match aItem with
  | Some item => GetLayer item <> Edge_Cuts
  | None => True
  end ->
  GetClearance (set_CopperEdgeClearance h r e) this aLayer aItem aSource =
  GetClearance h this aLayer aItem aSource.
Proof.
  intros Hedge.
  destruct (m_Parent (base this)) as [r'|] eqn:Hp.
  2:{ unfold GetClearance. rewrite GetBoard_set_CopperEdgeClearance.
      unfold GetBoard. rewrite Hp. reflexivity. }
  assert (Hb : GetBoard h (base this) = Some (boards h r'))
    by (unfold GetBoard; rewrite Hp; reflexivity).
  assert (Hb' : GetBoard (set_CopperEdgeClearance h r e) (base this) =
                Some (if decide (r' = r) then with_CopperEdgeClearance e (boards h r')
                      else boards h r'))
    by (rewrite GetBoard_set_CopperEdgeClearance, Hp; reflexivity).
  assert (Hrule : forall c s,
             GetRuleClearance (set_CopperEdgeClearance h r e) this aItem aLayer c s =
             GetRuleClearance h this aItem aLayer c s).
  { intros c s. unfold GetRuleClearance.
    rewrite GetConstraint_set_CopperEdgeClearance. reflexivity. }
  destruct (GetClearance_cases h this aLayer aItem _ Hb)
    as [Hpos | [[Hov [c Hc]] | [Hov Hr]]].
  - rewrite (GetClearance_level1 _ _ _ _ _ _ Hb Hpos).
    apply (GetClearance_level1 _ _ _ _ _ _ Hb' Hpos).
  - destruct (level1_silent _ _ Hov) as [HA HB].
    unfold GetClearance. rewrite Hb, Hb'. cbn [fst GetLocalClearanceOverrides].
    rewrite HA.
    destruct (GetRuleClearance_match h this aItem aLayer 0 aSource c Hc) as [s' Hs'].
    destruct (dynamic_cast_connected aItem) as [second|].
    + rewrite HB. cbn [negb Z.eqb]. rewrite Hrule, Hs'. reflexivity.
    + cbn [negb Z.eqb]. rewrite Hrule, Hs'. reflexivity.
  - assert (Hr' : no_rule (set_CopperEdgeClearance h r e) this aItem aLayer)
      by (unfold no_rule; rewrite GetConstraint_set_CopperEdgeClearance; exact Hr).
    rewrite (GetClearance_level3 _ _ _ _ _ _ Hb Hov Hr).
    rewrite (GetClearance_level3 _ _ _ _ _ _ Hb' Hov Hr').
    unfold second_effective_netclass.
    rewrite GetEffectiveNetclass_set_CopperEdgeClearance.
    destruct (GetEffectiveNetclass h this) as [na|]; [|reflexivity].
    assert (Hsec : match dynamic_cast_connected aItem with
                   | Some second =>
                       GetEffectiveNetclass (set_CopperEdgeClearance h r e) second
                   | None => Ok None
                   end =
                   match dynamic_cast_connected aItem with
                   | Some second => GetEffectiveNetclass h second
                   | None => Ok None
                   end).
    { destruct (dynamic_cast_connected aItem); [|reflexivity].
      apply GetEffectiveNetclass_set_CopperEdgeClearance. }
    rewrite Hsec.
    destruct (match dynamic_cast_connected aItem with
              | Some second => GetEffectiveNetclass h second
              | None => Ok None
              end) as [nb|]; [|reflexivity].
    cbn [mbind result_bind]. unfold spec_level3_candidates.
    rewrite !(edge_candidate_off_edge _ _ Hedge).
    destruct (decide (r' = r)); reflexivity.
Qed.

Lemma X11_edge_clearance_unused_off_edge_witness :
  GetClearance (set_CopperEdgeClearance (Sample.heap (Sample.board 150 250 [])) 0%nat 9000)
    (Sample.item (Some 0%nat) (Layer 0) (Some Sample.net1) 0 0) (Layer 0)
    (Some (Connected (Sample.item (Some 0%nat) (Layer 31) (Some Sample.net2) 0 0)))
    (Some "") =
  GetClearance (Sample.heap (Sample.board 150 250 []))
    (Sample.item (Some 0%nat) (Layer 0) (Some Sample.net1) 0 0) (Layer 0)
    (Some (Connected (Sample.item (Some 0%nat) (Layer 31) (Some Sample.net2) 0 0)))
    (Some "").
Proof.
  apply (X11_edge_clearance_unused_off_edge
           (Sample.heap (Sample.board 150 250 [])) 0%nat 9000
           (Sample.item (Some 0%nat) (Layer 0) (Some Sample.net1) 0 0) (Layer 0)
           (Some (Connected (Sample.item (Some 0%nat) (Layer 31) (Some Sample.net2) 0 0)))
           (Some "")).
  vm_compute. discriminate.
Defined.

(** X12. Level 1 is symmetric: for two connected items that both have a
    board and of which one carries a strictly positive override, swapping
    them gives the same clearance, on whatever layers the items lie and
    whatever layer is asked about. *)
Theorem X12_override_swap_symmetric h a b la lb sa sb boardA boardB :
  GetBoard h (base a) = Some boardA ->
  GetBoard h (base b) = Some boardB ->
  0 < max_override a (Some (Connected b)) ->
  clearance_of (GetClearance h a la (Some (Connected b)) sa) =
  clearance_of (GetClearance h b lb (Some (Connected a)) sb).
Proof.
  intros Ha Hb Hpos.
  assert (Hpos' : 0 < max_override b (Some (Connected a))).
  { unfold max_override in *. cbn [dynamic_cast_connected] in *. lia. }
  rewrite (GetClearance_level1 _ _ _ _ _ _ Ha Hpos).
  rewrite (GetClearance_level1 _ _ _ _ _ _ Hb Hpos').
  unfold max_override. cbn [clearance_of dynamic_cast_connected].
  rewrite Z.max_comm. reflexivity.
Qed.

Lemma X12_override_swap_symmetric_witness :
  clearance_of
    (GetClearance (Sample.heap (Sample.board 150 250 []))
       (Sample.item (Some 0%nat) Edge_Cuts (Some Sample.net1) 0 0) (Layer 0)
       (Some (Connected (Sample.item (Some 0%nat) (Layer 0) (Some Sample.net2) 120 0)))
       None) =
  clearance_of
    (GetClearance (Sample.heap (Sample.board 150 250 []))
       (Sample.item (Some 0%nat) (Layer 0) (Some Sample.net2) 120 0) (Layer 31)
       (Some (Connected (Sample.item (Some 0%nat) Edge_Cuts (Some Sample.net1) 0 0)))
       (Some "")).
Proof.
  apply (X12_override_swap_symmetric
           (Sample.heap (Sample.board 150 250 []))
           (Sample.item (Some 0%nat) Edge_Cuts (Some Sample.net1) 0 0)
           (Sample.item (Some 0%nat) (Layer 0) (Some Sample.net2) 120 0)
           (Layer 0) (Layer 31) None (Some "")
           (Sample.board 150 250 []) (Sample.board 150 250 [])).
  - reflexivity.
  - reflexivity.
  - vm_compute. reflexivity.
Defined.

(** X13. In Level 3 a second item can only raise the clearance: when no
    override is strictly positive and no rule matches with or without the
    second item, the clearance for the pair is at least the clearance of
    the item alone. *)
Theorem X13_second_item_only_raises h this aLayer aItem s1 s2 board netclass secondNetclass :
  GetBoard h (base this) = Some board ->
  no_override this aItem ->
  no_rule h this None aLayer ->
  no_rule h this aItem aLayer ->
  GetEffectiveNetclass h this = Ok netclass ->
  second_effective_netclass h aItem = Ok secondNetclass ->
  exists c1 c2,
    clearance_of (GetClearance h this aLayer None s1) = Ok c1 /\
    clearance_of (GetClearance h this aLayer aItem s2) = Ok c2 /\
    c1 <= c2.
Proof.
  intros Hb [HovA HovB] Hr0 Hr HA HB.
  rewrite (GetClearance_level3_value h this aLayer None s1 board netclass None
             Hb (conj HovA I) Hr0 HA eq_refl).
  rewrite (GetClearance_level3_value h this aLayer aItem s2 board netclass secondNetclass
             Hb (conj HovA HovB) Hr HA HB).
  rewrite !clearance_of_accumulate. eexists _, _. split; [reflexivity|].
  split; [reflexivity|].
  unfold spec_level3_candidates. rewrite !max_clearance_app.
  cbn [netclass_candidate edge_candidate dynamic_cast_connected local_candidate].
  pose proof (max_clearance_nonneg (netclass_candidate secondNetclass)).
  pose proof (max_clearance_nonneg (edge_candidate (GetDesignSettings board) aItem)).
  pose proof (max_clearance_nonneg (local_candidate (dynamic_cast_connected aItem))).
  change (max_clearance []) with 0.
  generalize dependent (max_clearance (netclass_candidate secondNetclass)).
  generalize dependent (max_clearance (edge_candidate (GetDesignSettings board) aItem)).
  generalize dependent (max_clearance (local_candidate (dynamic_cast_connected aItem))).
  generalize (max_clearance (netclass_candidate netclass)).
  generalize (max_clearance [(m_LocalClearance this, m_LocalClearanceSource this)]).
  generalize (max_clearance [(m_MinClearance (GetDesignSettings board),
                              "board minimum"%string)]).
  intros. lia.
Qed.

Lemma X13_second_item_only_raises_witness :
  exists c1 c2,
    clearance_of
      (GetClearance (Sample.heap (Sample.board 150 250 []))
         (Sample.item (Some 0%nat) (Layer 0) (Some Sample.net2) 0 0) (Layer 0) None None)
    = Ok c1 /\
    clearance_of
      (GetClearance (Sample.heap (Sample.board 150 250 []))
         (Sample.item (Some 0%nat) (Layer 0) (Some Sample.net2) 0 0) (Layer 0)
         (Some Sample.edge_segment) None)
    = Ok c2 /\
    c1 <= c2.
Proof.
  apply (X13_second_item_only_raises
           (Sample.heap (Sample.board 150 250 []))
           (Sample.item (Some 0%nat) (Layer 0) (Some Sample.net2) 0 0) (Layer 0)
           (Some Sample.edge_segment) None None (Sample.board 150 250 [])
           (Some Sample.Power) None).
  - reflexivity.
  - split; [vm_compute; discriminate | exact I].
  - reflexivity.
  - reflexivity.
  - reflexivity.
  - reflexivity.
Defined.

(** X14. A newly constructed item that is linked to a board always
    resolves to a netclass, and a clearance query for it alone, or against
    an item that is not a connected item, always returns a value. *)
Theorem X14_new_item_resolves h aParent onCopper ov ovs loc locs board :
  GetBoard h aParent = Some board ->
  let item := BOARD_CONNECTED_ITEM_new h aParent onCopper ov ovs loc locs in
  (exists nc, GetEffectiveNetclass h item = Ok (Some nc)) /\
  (forall aLayer aSource, exists c s, GetClearance h item aLayer None aSource = Ok (c, s)) /\
  (forall aLayer b aSource,
      exists c s, GetClearance h item aLayer (Some (Unconnected b)) aSource = Ok (c, s)).
Proof.
  intros Hb item.
  assert (HE : exists nc, GetEffectiveNetclass h item = Ok (Some nc)).
  { apply GetEffectiveNetclass_NullDeref_iff. intros Hf.
    apply GetEffectiveNetclass_NullDeref_iff in Hf.
    destruct Hf as [[=] | [Hn _]].
    unfold item in Hn. cbn [base BOARD_CONNECTED_ITEM_new] in Hn. congruence. }
  split; [exact HE|].
  assert (Hret : forall aLayer aItem aSource,
             dynamic_cast_connected aItem = None ->
             exists c s, GetClearance h item aLayer aItem aSource = Ok (c, s)).
  { intros aLayer aItem aSource Hd.
    destruct (GetClearance h item aLayer aItem aSource) as [[c s]|] eqn:Heq; [eauto|].
    apply GetClearance_NullDeref_iff in Heq.
    destruct Heq as (_ & _ & _ & [Hf | Hf]).
    - destruct HE as [nc HE]. congruence.
    - unfold second_effective_netclass in Hf. rewrite Hd in Hf. discriminate. }
  split.
  - intros aLayer aSource. apply Hret. reflexivity.
  - intros aLayer b aSource. apply Hret. reflexivity.
Qed.

Lemma X14_new_item_resolves_witness :
  exists nc,
    GetEffectiveNetclass (Sample.heap (Sample.board 150 250 []))
      (BOARD_CONNECTED_ITEM_new (Sample.heap (Sample.board 150 250 []))
         {| m_Parent := Some 0%nat; m_Layer := Layer 0 |} true 0 "" 0 "")
    = Ok (Some nc).
Proof.
  refine (proj1 (X14_new_item_resolves
                   (Sample.heap (Sample.board 150 250 []))
                   {| m_Parent := Some 0%nat; m_Layer := Layer 0 |} true 0 "" 0 ""
                   (Sample.board 150 250 []) _)).
  reflexivity.
Defined.

(** ** mirrorPointX *)

Lemma wrap_int_id z : in_int z -> wrap_int z = z.
Proof.
  unfold in_int, int_min, int_max, wrap_int. intros H.
  rewrite Z.mod_small by lia. lia.
Qed.

(** X15. Where none of its three [int] operations overflows,
    [mirrorPointX] keeps [y] and sends [x] to [2 * axis - x], the point at
    the same distance on the other side of the vertical axis; a point on
    the axis stays where it is. *)
Theorem X15_mirrorPointX_value aPoint aMirrorPoint :
  in_int (wxPoint.x aPoint - wxPoint.x aMirrorPoint) ->
  in_int (wxPoint.x aMirrorPoint - wxPoint.x aPoint) ->
  in_int (2 * wxPoint.x aMirrorPoint - wxPoint.x aPoint) ->
  mirrorPointX aPoint aMirrorPoint =
    wxPoint.mk (2 * wxPoint.x aMirrorPoint - wxPoint.x aPoint) (wxPoint.y aPoint) /\
  wxPoint.x (mirrorPointX aPoint aMirrorPoint) - wxPoint.x aMirrorPoint =
    wxPoint.x aMirrorPoint - wxPoint.x aPoint /\
  (wxPoint.x aPoint = wxPoint.x aMirrorPoint ->
   wxPoint.x (mirrorPointX aPoint aMirrorPoint) = wxPoint.x aPoint).
Proof.
  intros H1 H2 H3.
  assert (Heq : mirrorPointX aPoint aMirrorPoint =
                wxPoint.mk (2 * wxPoint.x aMirrorPoint - wxPoint.x aPoint) (wxPoint.y aPoint)).
  { unfold mirrorPointX. cbn [wxPoint.x wxPoint.y].
    rewrite (wrap_int_id _ H1).
    replace (- (wxPoint.x aPoint - wxPoint.x aMirrorPoint))
      with (wxPoint.x aMirrorPoint - wxPoint.x aPoint) by lia.
    rewrite (wrap_int_id _ H2).
    replace (wxPoint.x aMirrorPoint - wxPoint.x aPoint + wxPoint.x aMirrorPoint)
      with (2 * wxPoint.x aMirrorPoint - wxPoint.x aPoint) by lia.
    rewrite (wrap_int_id _ H3). reflexivity. }
  rewrite Heq. cbn [wxPoint.x]. repeat split; lia.
Qed.

Lemma X15_mirrorPointX_value_witness :
  mirrorPointX (wxPoint.mk 30 7) (wxPoint.mk 100 (-4)) = wxPoint.mk 170 7.
Proof.
  refine (proj1 (X15_mirrorPointX_value (wxPoint.mk 30 7) (wxPoint.mk 100 (-4)) _ _ _));
    unfold in_int, int_min, int_max; cbn [wxPoint.x]; lia.
Defined.

(** X16. Mirroring twice about the same axis gives the point back, for
    every point whose [x] is an [int], overflow or not: the three
    operations wrap around and the wraps cancel. *)
Theorem X16_mirrorPointX_involutive aPoint aMirrorPoint :
  in_int (wxPoint.x aPoint) ->
  mirrorPointX (mirrorPointX aPoint aMirrorPoint) aMirrorPoint = aPoint.
Proof.
  intros Hx. destruct aPoint as [px py], aMirrorPoint as [mx my].
  unfold mirrorPointX. cbn [wxPoint.x wxPoint.y] in *. f_equal.
  assert (Hw : forall z, exists k, wrap_int z = z + k * 2 ^ 32 /\ in_int (wrap_int z)).
  { intros z. unfold wrap_int, in_int, int_min, int_max.
    exists (- ((z + 2 ^ 31) / 2 ^ 32)).
    pose proof (Z.mod_pos_bound (z + 2 ^ 31) (2 ^ 32) ltac:(lia)).
    pose proof (Z.div_mod (z + 2 ^ 31) (2 ^ 32) ltac:(lia)). lia. }
  destruct (Hw (px - mx)) as (k1 & E1 & _).
  destruct (Hw (- wrap_int (px - mx))) as (k2 & E2 & _).
  destruct (Hw (wrap_int (- wrap_int (px - mx)) + mx)) as (k3 & E3 & _).
  set (q := wrap_int (wrap_int (- wrap_int (px - mx)) + mx)) in *.
  destruct (Hw (q - mx)) as (k4 & E4 & _).
  destruct (Hw (- wrap_int (q - mx))) as (k5 & E5 & _).
  destruct (Hw (wrap_int (- wrap_int (q - mx)) + mx)) as (k6 & E6 & R6).
  unfold in_int, int_min, int_max in *. lia.
Qed.

Lemma X16_mirrorPointX_involutive_witness :
  mirrorPointX (mirrorPointX (wxPoint.mk (- 2 ^ 31) 5) (wxPoint.mk (2 ^ 31 - 1) 0))
    (wxPoint.mk (2 ^ 31 - 1) 0)
  = wxPoint.mk (- 2 ^ 31) 5.
Proof.
  apply (X16_mirrorPointX_involutive (wxPoint.mk (- 2 ^ 31) 5) (wxPoint.mk (2 ^ 31 - 1) 0)).
  unfold in_int, int_min, int_max. cbn [wxPoint.x]. lia.
Defined.

(** ** PadFilter and FootprintFilter *)

(** The backwards loop has filtered the entries below [n] and left the
    others in place. *)
Lemma collector_filter_loop_spec {A : Type} (Type_ : A -> KICAD_T) (keep : KICAD_T)
    (n : nat) (c : list A) :
  (n <= length c)%nat ->
  collector_filter_loop Type_ keep n c =
    filter (fun item => Type_ item = keep) (take n c) ++ drop n c.
Proof.
  revert c. induction n as [|i IH]; intros c Hn.
  - cbn [collector_filter_loop]. rewrite take_0, drop_0. reflexivity.
  - cbn [collector_filter_loop].
    destruct (c !! i) as [item|] eqn:Hi.
    2:{ apply lookup_ge_None in Hi. lia. }
    rewrite (take_S_r _ _ _ Hi), filter_app.
    destruct (decide (Type_ item = keep)) as [Hk|Hk].
    + rewrite bool_decide_eq_false_2 by (intros H; apply H; exact Hk).
      rewrite IH by lia. rewrite (drop_S _ _ _ Hi).
      rewrite filter_cons_True by exact Hk. rewrite filter_nil.
      rewrite <- app_assoc. reflexivity.
    + rewrite bool_decide_eq_true_2 by exact Hk.
      rewrite IH by (rewrite length_delete by eauto; lia).
      rewrite filter_cons_False by exact Hk. rewrite filter_nil, app_nil_r.
      rewrite delete_take_drop.
      rewrite take_app_length' by (rewrite length_take; lia).
      rewrite drop_app_length' by (rewrite length_take; lia).
      reflexivity.
Qed.

Lemma collector_filter_loop_filter {A : Type} (Type_ : A -> KICAD_T) (keep : KICAD_T)
    (c : list A) :
  collector_filter_loop Type_ keep (length c) c = filter (fun item => Type_ item = keep) c.
Proof.
  rewrite collector_filter_loop_spec by lia.
  rewrite firstn_all, drop_all, app_nil_r. reflexivity.
Qed.

(** X17. [PadFilter] leaves in the collector exactly the entries whose
    type is [PCB_PAD_T], in the order they had; an empty collector stays
    empty. *)
Theorem X17_PadFilter_keeps_pads {A : Type} (Type_ : A -> KICAD_T) (aCollector : list A) :
  PadFilter Type_ aCollector = filter (fun item => Type_ item = PCB_PAD_T) aCollector /\
  (forall item, item ∈ PadFilter Type_ aCollector <->
                item ∈ aCollector /\ Type_ item = PCB_PAD_T) /\
  PadFilter Type_ aCollector `sublist_of` aCollector.
Proof.
  unfold PadFilter. rewrite collector_filter_loop_filter.
  split; [reflexivity|]. split.
  - intros item. rewrite list_elem_of_filter. tauto.
  - apply sublist_filter.
Qed.

(** X18. [FootprintFilter] leaves in the collector exactly the entries
    whose type is [PCB_FOOTPRINT_T], in the order they had. *)
Theorem X18_FootprintFilter_keeps_footprints {A : Type} (Type_ : A -> KICAD_T)
    (aCollector : list A) :
  FootprintFilter Type_ aCollector =
    filter (fun item => Type_ item = PCB_FOOTPRINT_T) aCollector /\
  (forall item, item ∈ FootprintFilter Type_ aCollector <->
                item ∈ aCollector /\ Type_ item = PCB_FOOTPRINT_T) /\
  FootprintFilter Type_ aCollector `sublist_of` aCollector.
Proof.
  unfold FootprintFilter. rewrite collector_filter_loop_filter.
  split; [reflexivity|]. split.
  - intros item. rewrite list_elem_of_filter. tauto.
  - apply sublist_filter.
Qed.

Lemma filter_filter_same {A : Type} (P : A -> Prop) `{forall x, Decision (P x)} (l : list A) :
  filter P (filter P l) = filter P l.
Proof.
  induction l as [|x l IH]; [reflexivity|].
  destruct (decide (P x)) as [Hp|Hp].
  - rewrite !filter_cons_True by exact Hp. rewrite IH. reflexivity.
  - rewrite !filter_cons_False by exact Hp. exact IH.
Qed.

Lemma filter_filter_disjoint {A : Type} (P Q : A -> Prop)
    `{forall x, Decision (P x)} `{forall x, Decision (Q x)} (l : list A) :
  (forall x, P x -> Q x -> False) ->
  filter Q (filter P l) = [].
Proof.
  intros Hd. induction l as [|x l IH]; [reflexivity|].
  destruct (decide (P x)) as [Hp|Hp].
  - rewrite filter_cons_True by exact Hp.
    rewrite filter_cons_False by (intros Hq; exact (Hd x Hp Hq)). exact IH.
  - rewrite filter_cons_False by exact Hp. exact IH.
Qed.

(** X19. Filtering twice is filtering once, and the two filters exclude
    each other: after [PadFilter] nothing survives [FootprintFilter], and
    the other way round. *)
Theorem X19_filters_compose {A : Type} (Type_ : A -> KICAD_T) (aCollector : list A) :
  PadFilter Type_ (PadFilter Type_ aCollector) = PadFilter Type_ aCollector /\
  FootprintFilter Type_ (FootprintFilter Type_ aCollector) =
    FootprintFilter Type_ aCollector /\
  FootprintFilter Type_ (PadFilter Type_ aCollector) = [] /\
  PadFilter Type_ (FootprintFilter Type_ aCollector) = [].
Proof.
  unfold PadFilter, FootprintFilter. rewrite !collector_filter_loop_filter.
  split; [apply filter_filter_same|]. split; [apply filter_filter_same|].
  split; apply filter_filter_disjoint; intros x H1 H2; congruence.
Qed.

(** ** ChangeTrackWidth *)

Lemma GetNetClass_not_null h this o :
  GetNetClass h this = Ok o -> exists nc, o = Some nc.
Proof.
  unfold GetNetClass, GetDefault.
  destruct (m_netinfo this) as [netinfo|]; [|discriminate].
  destruct (NETINFO_ITEM.GetNetClass netinfo) as [nc|]; [intros [= <-]; eauto|].
  destruct (GetBoard h (base this)); [intros [= <-]; eauto | discriminate].
Qed.

Lemma change_width_NullDeref h sz item :
  change_width h sz item = NullDeref <->
  exists via, item = ItemVia via /\ VIA.m_ViaType via = VIATYPE_MICROVIA /\
              GetNetClass h (VIA.connected via) = NullDeref.
Proof.
  destruct item as [via|track|track|kind]; cbn [change_width];
    try (split; [discriminate | intros (v & [=] & _)]).
  destruct (decide (VIA.m_ViaType via = VIATYPE_MICROVIA)) as [Hm|Hm].
  - rewrite bool_decide_eq_true_2 by exact Hm.
    destruct (GetNetClass h (VIA.connected via)) as [o|] eqn:Hg.
    + destruct (GetNetClass_not_null _ _ _ Hg) as [nc ->]. cbn.
      split; [discriminate|]. intros (v & [= <-] & _ & Hf). congruence.
    + cbn. split; [|reflexivity]. intros _. exists via. auto.
  - rewrite bool_decide_eq_false_2 by exact Hm. cbn.
    split; [discriminate|]. intros (v & [= <-] & Hm' & _). contradiction.
Qed.

Lemma change_width_idempotent h sz item item' :
  change_width h sz item = Ok item' -> change_width h sz item' = Ok item'.
Proof.
  destruct item as [via|track|track|kind]; cbn [change_width];
    try (intros [= <-]; reflexivity).
  destruct (bool_decide (VIA.m_ViaType via = VIATYPE_MICROVIA)) eqn:Hm.
  - destruct (GetNetClass h (VIA.connected via)) as [o|] eqn:Hg; [|discriminate].
    destruct (GetNetClass_not_null _ _ _ Hg) as [nc ->]. cbn.
    intros [= <-]. cbn [change_width VIA.m_ViaType VIA.connected].
    rewrite Hm, Hg. reflexivity.
  - cbn. intros [= <-]. cbn [change_width VIA.m_ViaType VIA.connected].
    rewrite Hm. reflexivity.
Qed.

(** X20. [ChangeTrackWidth] dereferences a null pointer exactly when the
    selection holds a microvia whose [GetNetClass] fails, that is one with
    no net record, or with a net record without netclass and no board;
    tracks, arcs, other vias and other items never make it fail. *)
Theorem X20_ChangeTrackWidth_failure h sz selection :
  ChangeTrackWidth h sz selection = NullDeref <->
  exists via, ItemVia via ∈ selection /\ VIA.m_ViaType via = VIATYPE_MICROVIA /\
              GetNetClass h (VIA.connected via) = NullDeref.
Proof.
  induction selection as [|item rest IH]; cbn [ChangeTrackWidth].
  - split; [discriminate|]. intros (v & Hin & _). inversion Hin.
  - destruct (change_width h sz item) as [item'|] eqn:Hc.
    + cbn [mbind result_bind].
      destruct (ChangeTrackWidth h sz rest) as [rest'|] eqn:Hrest.
      * cbn [mbind result_bind]. split; [discriminate|].
        intros (v & Hin & Hm & Hg). apply elem_of_cons in Hin as [Heq | Hin].
        -- assert (Hf : change_width h sz item = NullDeref)
             by (apply change_width_NullDeref; exists v; auto).
           congruence.
        -- assert (Hf : Ok rest' = @NullDeref (list EDA_ITEM))
             by (apply IH; exists v; auto).
           discriminate.
      * cbn [mbind result_bind]. split; [|reflexivity]. intros _.
        destruct (proj1 IH eq_refl) as (v & Hin & Hm & Hg).
        exists v. split; [right; exact Hin | auto].
    + cbn [mbind result_bind]. split; [|reflexivity]. intros _.
      apply change_width_NullDeref in Hc. destruct Hc as (v & -> & Hm & Hg).
      exists v. split; [left | auto].
Qed.

(** X21. [ChangeTrackWidth] is idempotent and keeps the selection's size:
    once it has run, running it again over the result changes nothing. *)
Theorem X21_ChangeTrackWidth_idempotent h sz selection selection' :
  ChangeTrackWidth h sz selection = Ok selection' ->
  ChangeTrackWidth h sz selection' = Ok selection' /\
  length selection' = length selection.
Proof.
  revert selection'. induction selection as [|item rest IH]; intros selection';
    cbn [ChangeTrackWidth].
  - intros [= <-]. split; reflexivity.
  - destruct (change_width h sz item) as [item'|] eqn:Hc; [|discriminate].
    cbn [mbind result_bind].
    destruct (ChangeTrackWidth h sz rest) as [rest'|]; [|discriminate].
    cbn [mbind result_bind]. intros [= <-].
    destruct (IH rest' eq_refl) as [Hi Hl].
    cbn [ChangeTrackWidth length]. rewrite (change_width_idempotent _ _ _ _ Hc).
    cbn [mbind result_bind]. rewrite Hi. cbn [mbind result_bind].
    split; [reflexivity | congruence].
Qed.

Lemma X21_ChangeTrackWidth_idempotent_witness :
  ChangeTrackWidth (Sample.heap (Sample.board 150 250 []))
    {| GetuViaDiameter := fun _ => 300; GetuViaDrill := fun _ => 100;
       GetCurrentViaSize := 800; GetCurrentViaDrill := 400; GetCurrentTrackWidth := 250 |}
    [ItemTrace (TRACK.mk (Sample.item (Some 0%nat) (Layer 0) (Some Sample.net1) 0 0) 250);
     ItemVia (VIA.mk (Sample.item (Some 0%nat) (Layer 0) (Some Sample.net2) 0 0)
                VIATYPE_MICROVIA 300 100);
     ItemOther 7]
  = Ok [ItemTrace (TRACK.mk (Sample.item (Some 0%nat) (Layer 0) (Some Sample.net1) 0 0) 250);
        ItemVia (VIA.mk (Sample.item (Some 0%nat) (Layer 0) (Some Sample.net2) 0 0)
                   VIATYPE_MICROVIA 300 100);
        ItemOther 7].
Proof.
  refine (proj1 (X21_ChangeTrackWidth_idempotent
                   (Sample.heap (Sample.board 150 250 []))
                   {| GetuViaDiameter := fun _ => 300; GetuViaDrill := fun _ => 100;
                      GetCurrentViaSize := 800; GetCurrentViaDrill := 400;
                      GetCurrentTrackWidth := 250 |}
                   [ItemTrace (TRACK.mk (Sample.item (Some 0%nat) (Layer 0)
                                           (Some Sample.net1) 0 0) 10);
                    ItemVia (VIA.mk (Sample.item (Some 0%nat) (Layer 0)
                                       (Some Sample.net2) 0 0)
                               VIATYPE_MICROVIA 1 2);
                    ItemOther 7]
                   _ _)).
  reflexivity.
Defined.

(** X22. What [ChangeTrackWidth] leaves at each place of the selection: a
    track or an arc with the board's current track width, a via that is not
    a microvia with the current via size and drill, another item as it was;
    a microvia whose net record has a netclass takes that netclass'
    microvia sizes, also for net code 0, where the effective netclass would
    be the board's Default. *)
Theorem X22_ChangeTrackWidth_entries h sz selection selection' i :
  ChangeTrackWidth h sz selection = Ok selection' ->
  match selection !! i with
  | None => selection' !! i = None
  | Some (ItemTrace track) =>
      selection' !! i =
        Some (ItemTrace (TRACK.mk (TRACK.connected track) (GetCurrentTrackWidth sz)))
  | Some (ItemArc track) =>
      selection' !! i =
        Some (ItemArc (TRACK.mk (TRACK.connected track) (GetCurrentTrackWidth sz)))
  | Some (ItemOther kind) => selection' !! i = Some (ItemOther kind)
  | Some (ItemVia via) =>
      (VIA.m_ViaType via <> VIATYPE_MICROVIA ->
       selection' !! i =
         Some (ItemVia (VIA.mk (VIA.connected via) (VIA.m_ViaType via)
                          (GetCurrentViaSize sz) (GetCurrentViaDrill sz)))) /\
      (forall netinfo nc,
          VIA.m_ViaType via = VIATYPE_MICROVIA ->
          m_netinfo (VIA.connected via) = Some netinfo ->
          NETINFO_ITEM.GetNetClass netinfo = Some nc ->
          selection' !! i =
            Some (ItemVia (VIA.mk (VIA.connected via) VIATYPE_MICROVIA
                             (GetuViaDiameter sz nc) (GetuViaDrill sz nc))))
  end.
Proof.
  revert selection' i. induction selection as [|item rest IH]; intros selection' i;
    cbn [ChangeTrackWidth].
  - intros [= <-]. reflexivity.
  - destruct (change_width h sz item) as [item'|] eqn:Hc; [|discriminate].
    cbn [mbind result_bind].
    destruct (ChangeTrackWidth h sz rest) as [rest'|] eqn:Hrest; [|discriminate].
    cbn [mbind result_bind]. intros [= <-].
    destruct i as [|i]; [|exact (IH rest' i eq_refl)].
    cbn [lookup list_lookup].
    destruct item as [via|track|track|kind]; cbn [change_width] in Hc;
      try (injection Hc as <-; reflexivity).
    split.
    + intros Hm. rewrite bool_decide_eq_false_2 in Hc by exact Hm. cbn in Hc.
      injection Hc as <-. reflexivity.
    + intros netinfo nc Hm Hn Hnc. rewrite bool_decide_eq_true_2 in Hc by exact Hm.
      unfold GetNetClass in Hc. rewrite Hn, Hnc in Hc. cbn in Hc.
      injection Hc as <-. rewrite Hm. reflexivity.
Qed.

Lemma X22_ChangeTrackWidth_entries_witness :
  [ItemVia (VIA.mk (Sample.item (Some 0%nat) (Layer 0) (Some Sample.net0) 0 0)
              VIATYPE_MICROVIA 300 300)] !! 0%nat =
  Some (ItemVia (VIA.mk (Sample.item (Some 0%nat) (Layer 0) (Some Sample.net0) 0 0)
                   VIATYPE_MICROVIA 300 300)).
Proof.
  refine (proj2 (X22_ChangeTrackWidth_entries
                   (Sample.heap (Sample.board 150 250 []))
                   {| GetuViaDiameter := NETCLASS.m_Clearance;
                      GetuViaDrill := NETCLASS.m_Clearance;
                      GetCurrentViaSize := 800; GetCurrentViaDrill := 400;
                      GetCurrentTrackWidth := 250 |}
                   [ItemVia (VIA.mk (Sample.item (Some 0%nat) (Layer 0)
                                       (Some Sample.net0) 0 0)
                               VIATYPE_MICROVIA 1 2)]
                   _ 0%nat _) Sample.net0 Sample.Wide _ _ _); reflexivity.
Defined.
